(** * Floower firmware: the power and sleep orchestrator

    A shallow embedding of [src/floower-esp32/floower-esp32.ino]: the global
    variables of the sketch, [setup], [loop], [periodicOperation],
    [powerWatchDog], [planDeepSleep] and [enterDeepSleep], followed by the
    properties of the power state machine, of the deep-sleep scheduler, of
    the watchdog heartbeat and of the deferred initialisation of the remote.

    The sketch is single threaded.  Every call into a collaborator
    ([floower], [remote], [automaton], [config], the ESP-IDF) is recorded in
    a trace of events, in program order; every value a collaborator or the
    clock returns is an input of the call that reads it. *)

From Stdlib Require Import ZArith QArith List Bool Lia.
Import ListNotations.
Local Open Scope Z_scope.

(** ** Machine integers

    On the ESP32 [long] and [unsigned long] are 32 bits wide.  [millis()]
    returns an [unsigned long]; the timers of the sketch are [long]. *)

Definition to_ulong (z : Z) : Z := z mod 2 ^ 32.

Definition to_long (z : Z) : Z := (z + 2 ^ 31) mod 2 ^ 32 - 2 ^ 31.

(** [millis()] when [clock] milliseconds have elapsed since boot. *)
Definition millis (clock : Z) : Z := to_ulong clock.

(** ** Voltages

    [Battery.voltage] is a finite reading computed from an ADC count; it is
    modelled as a rational number and the two comparisons of the sketch as
    boolean tests on rationals. *)

Definition Qltb (x y : Q) : bool := (Qnum x * QDen y <? Qnum y * QDen x)%Z.

Definition Qgeb (x y : Q) : bool := Qle_bool y x.

Record Battery : Type := mkBattery { voltage : Q; level : Z }.

(** ** Configuration constants (the [#define]s of the sketch) *)

Definition deepSleepEnabled : bool := true.

Definition POWER_LOW_ENTER_THRESHOLD : Q := 0.
Definition POWER_LOW_LEAVE_THRESHOLD : Q := 0.
Definition POWER_DEAD_THRESHOLD : Q := 34 # 10.

Definition REMOTE_INIT_TIMEOUT : Z := 2000.
Definition DEEP_SLEEP_INACTIVITY_TIMEOUT : Z := 60000.
Definition BATTERY_DEAD_WARNING_DURATION : Z := 5000.
Definition PERIODIC_OPERATIONS_INTERVAL : Z := 3000.
Definition WDT_TIMEOUT : Z := 10.

(** ** Calls into the collaborators *)

Inductive Color : Type := colorRed | colorBlack.

Inductive FloowerColorMode : Type := TRANSITION | FLASH.

Inductive Event : Type :=
| WdtInit (timeoutSeconds : Z)
| WdtAdd
| WdtReset
| ConfigBegin
| ConfigLoad
| RegisterOutsideTouch
| BtStop
| FloowerInit
| ReadBatteryState (b : Battery)
| Delay (ms : Z)
| SetLowPowerMode (on : bool)
| SetColor (c : Color) (mode : FloowerColorMode) (ms : Z)
| InitServo
| SetPetalsOpenLevel (openLevel : Z) (ms : Z)
| AutomatonInit
| FloowerUpdate
| Acty
| SetBatteryLevel (lvl : Z) (charging : bool)
| RemoteInit
| RemoteStartAdvertising
| EnableTouchpadWakeup
| DeepSleepStart.

(** ** The state of the sketch

    The five globals of the sketch, the low-power flag of [floower] and the
    trace of calls made so far (oldest first). *)

Record State : Type := mkState {
  batteryDead : bool;
  batteryCharging : bool;
  deepSleepTime : Z;
  periodicOperationsTime : Z;
  initRemoteTime : Z;
  lowPowerMode : bool;
  trace : list Event
}.

(** The globals as initialised at power-on or on wake-up from deep sleep
    (deep sleep keeps no memory). *)
Definition power_on : State :=
  {| batteryDead := false; batteryCharging := false;
     deepSleepTime := 0; periodicOperationsTime := 0; initRemoteTime := 0;
     lowPowerMode := false; trace := [] |}.

(** The power mode of the specification, read off the two flags. *)
Inductive PowerMode : Type := Normal | LowPower | Dead.

Definition powerMode (s : State) : PowerMode :=
  if batteryDead s then Dead
  else if lowPowerMode s then LowPower else Normal.

(** ** A state monad with suspension

    A computation transforms the state and either returns a value or never
    returns ([None]): [esp_deep_sleep_start()] halts the processor, and what
    follows it in program order is not executed. *)

Definition M (A : Type) : Type := State -> option A * State.

Definition ret {A : Type} (a : A) : M A := fun s => (Some a, s).

Definition bind {A B : Type} (m : M A) (k : A -> M B) : M B :=
  fun s => match m s with
           | (Some a, s') => k a s'
           | (None, s') => (None, s')
           end.

Definition halt {A : Type} : M A := fun s => (None, s).

Declare Scope sketch_scope.
Delimit Scope sketch_scope with sketch.
Notation "x <- m ;; k" := (bind m (fun x => k))
  (at level 61, m at next level, right associativity) : sketch_scope.
Notation "m ;; k" := (bind m (fun _ => k))
  (at level 61, right associativity) : sketch_scope.
Local Open Scope sketch_scope.

Definition get {A : Type} (field : State -> A) : M A :=
  fun s => (Some (field s), s).

Definition when (c : bool) (m : M unit) : M unit := if c then m else ret tt.

Definition emit (e : Event) : M unit := fun s =>
  (Some tt,
   {| batteryDead := batteryDead s; batteryCharging := batteryCharging s;
      deepSleepTime := deepSleepTime s;
      periodicOperationsTime := periodicOperationsTime s;
      initRemoteTime := initRemoteTime s; lowPowerMode := lowPowerMode s;
      trace := trace s ++ [e] |}).

Definition set_batteryDead (b : bool) : M unit := fun s =>
  (Some tt,
   {| batteryDead := b; batteryCharging := batteryCharging s;
      deepSleepTime := deepSleepTime s;
      periodicOperationsTime := periodicOperationsTime s;
      initRemoteTime := initRemoteTime s; lowPowerMode := lowPowerMode s;
      trace := trace s |}).

Definition set_batteryCharging (b : bool) : M unit := fun s =>
  (Some tt,
   {| batteryDead := batteryDead s; batteryCharging := b;
      deepSleepTime := deepSleepTime s;
      periodicOperationsTime := periodicOperationsTime s;
      initRemoteTime := initRemoteTime s; lowPowerMode := lowPowerMode s;
      trace := trace s |}).

Definition set_deepSleepTime (t : Z) : M unit := fun s =>
  (Some tt,
   {| batteryDead := batteryDead s; batteryCharging := batteryCharging s;
      deepSleepTime := t;
      periodicOperationsTime := periodicOperationsTime s;
      initRemoteTime := initRemoteTime s; lowPowerMode := lowPowerMode s;
      trace := trace s |}).

Definition set_periodicOperationsTime (t : Z) : M unit := fun s =>
  (Some tt,
   {| batteryDead := batteryDead s; batteryCharging := batteryCharging s;
      deepSleepTime := deepSleepTime s;
      periodicOperationsTime := t;
      initRemoteTime := initRemoteTime s; lowPowerMode := lowPowerMode s;
      trace := trace s |}).

Definition set_initRemoteTime (t : Z) : M unit := fun s =>
  (Some tt,
   {| batteryDead := batteryDead s; batteryCharging := batteryCharging s;
      deepSleepTime := deepSleepTime s;
      periodicOperationsTime := periodicOperationsTime s;
      initRemoteTime := t; lowPowerMode := lowPowerMode s;
      trace := trace s |}).

(** Modelled from the spec: the class [Floower] ([floower.h]) is not among
    the sources; of its low-power mode the sketch uses
    [setLowPowerMode(bool)] and [isLowPowerMode()], taken here as the setter
    and the getter of one boolean flag, [lowPowerMode]. *)
Definition setLowPowerMode (on : bool) : M unit := fun s =>
  (Some tt,
   {| batteryDead := batteryDead s; batteryCharging := batteryCharging s;
      deepSleepTime := deepSleepTime s;
      periodicOperationsTime := periodicOperationsTime s;
      initRemoteTime := initRemoteTime s; lowPowerMode := on;
      trace := trace s ++ [SetLowPowerMode on] |}).

(** Modelled from the spec: the getter paired with [setLowPowerMode]
    ([floower.h] is not among the sources). *)
Definition isLowPowerMode : M bool := get lowPowerMode.

(** The state a computation leaves, and whether it returns. *)
Definition exec {A : Type} (m : M A) (s : State) : State := snd (m s).

Definition returns {A : Type} (m : M A) (s : State) : bool :=
  match fst (m s) with Some _ => true | None => false end.

(** ** Inputs

    What the clock and the collaborators answer during [setup]. *)
Record BootInput : Type := mkBootInput {
  wakeup_touchpad : bool;      (* ESP_SLEEP_WAKEUP_TOUCHPAD == wakeup_reason *)
  boot_usb : bool;             (* floower.isUSBPowered(), line 77 *)
  calibration : Battery;       (* floower.readBatteryState(), line 73 *)
  first_reading : Battery;     (* floower.readBatteryState(), line 79 *)
  second_reading : Battery;    (* floower.readBatteryState(), line 82 *)
  dead_clock : Z;              (* clock at planDeepSleep, line 90 *)
  remote_clock : Z;            (* clock at millis(), line 101 *)
  periodic_clock : Z;          (* clock at millis(), line 105 *)
  initRemoteOnStartup : bool   (* config.initRemoteOnStartup *)
}.

(** What the clock and the collaborators answer during one call of [loop]. *)
Record TickInput : Type := mkTickInput {
  clock : Z;                   (* clock at millis(), line 114 *)
  usbPowered : bool;           (* floower.isUSBPowered(), line 160 *)
  battery : Battery;           (* floower.readBatteryState(), line 161 *)
  watchdog_clock : Z;          (* clock at planDeepSleep(0), line 171 *)
  petalsMoving : bool;         (* floower.arePetalsMoving() *)
  lit : bool;                  (* floower.isLit() *)
  idle : bool;                 (* floower.isIdle() *)
  petalOpenLevel : Z;          (* floower.getPetalOpenLevel() *)
  connected : bool;            (* remote.isConnected() *)
  plan_clock : Z               (* clock at planDeepSleep, line 134 *)
}.

(** ** The sketch *)

(** [deepSleepTime = millis() + timeoutMs]: the sum is an [unsigned long],
    stored in a [long]. *)
Definition planDeepSleep (clk : Z) (timeoutMs : Z) : M unit :=
  set_deepSleepTime (to_long (to_ulong (millis clk + timeoutMs))).

Definition enterDeepSleep : M unit :=
  emit EnableTouchpadWakeup ;;
  emit BtStop ;;
  emit DeepSleepStart ;;
  halt.

(** [CALIBRATE_HARDWARE] is not defined. *)
Definition configure : M unit :=
  emit ConfigBegin ;;
  emit ConfigLoad.

(** [powerWatchDog], with the three thresholds as parameters. *)
Definition powerWatchDogWith (enter leave dead : Q) (i : TickInput) : M unit :=
  isDead <- get batteryDead ;;
  if isDead then ret tt
  else
    set_batteryCharging (usbPowered i) ;;
    emit (ReadBatteryState (battery i)) ;;
    charging <- get batteryCharging ;;
    emit (SetBatteryLevel (level (battery i)) charging) ;;
    if charging then setLowPowerMode false
    else if Qltb (voltage (battery i)) dead then
      emit (SetColor colorBlack TRANSITION 2500) ;;
      emit (SetPetalsOpenLevel 0 2500) ;;
      planDeepSleep (watchdog_clock i) 0 ;;
      set_batteryDead true
    else
      low <- isLowPowerMode ;;
      if negb low && Qltb (voltage (battery i)) enter then
        setLowPowerMode true
      else
        low' <- isLowPowerMode ;;
        if low' && Qgeb (voltage (battery i)) leave then
          setLowPowerMode false
        else ret tt.

Definition powerWatchDog : TickInput -> M unit :=
  powerWatchDogWith POWER_LOW_ENTER_THRESHOLD POWER_LOW_LEAVE_THRESHOLD
                    POWER_DEAD_THRESHOLD.

Definition periodicOperation (i : TickInput) : M unit :=
  emit WdtReset ;;
  emit Acty ;;
  powerWatchDog i.

Definition setup (b : BootInput) : M unit :=
  emit (WdtInit WDT_TIMEOUT) ;;
  emit WdtAdd ;;
  configure ;;
  wasSleeping <-
    (if deepSleepEnabled && wakeup_touchpad b
     then emit RegisterOutsideTouch ;; ret true
     else ret false) ;;
  emit BtStop ;;
  emit FloowerInit ;;
  emit (ReadBatteryState (calibration b)) ;;
  emit (Delay 50) ;;
  set_batteryCharging (boot_usb b) ;;
  charging <- get batteryCharging ;;
  when (negb charging)
    (emit (ReadBatteryState (first_reading b)) ;;
     when (Qltb (voltage (first_reading b)) POWER_DEAD_THRESHOLD)
       (emit (Delay 500) ;;
        emit (ReadBatteryState (second_reading b)) ;;
        set_batteryDead
          (Qltb (voltage (second_reading b)) POWER_DEAD_THRESHOLD))) ;;
  isDead <- get batteryDead ;;
  if isDead then
    planDeepSleep (dead_clock b) BATTERY_DEAD_WARNING_DURATION ;;
    setLowPowerMode true ;;
    emit (SetColor colorRed FLASH 1000)
  else
    emit InitServo ;;
    when (negb wasSleeping) (emit (SetPetalsOpenLevel 0 100)) ;;
    when (initRemoteOnStartup b)
      (set_initRemoteTime
         (to_long (to_ulong (millis (remote_clock b) + REMOTE_INIT_TIMEOUT)))) ;;
    emit AutomatonInit ;;
    set_periodicOperationsTime
      (to_long (to_ulong (millis (periodic_clock b)
                          + PERIODIC_OPERATIONS_INTERVAL))).

(** The three timers of [loop] (lines 115-127) and its planning block
    (lines 130-141), in program order.  [now] is the [long] read at
    line 114. *)

Definition periodicTimer (now : Z) (i : TickInput) : M unit :=
  t <- get periodicOperationsTime ;;
  when (negb (t =? 0) && (t <? now))
    (set_periodicOperationsTime (to_long (now + PERIODIC_OPERATIONS_INTERVAL)) ;;
     periodicOperation i).

Definition remoteTimer (now : Z) : M unit :=
  t <- get initRemoteTime ;;
  when (negb (t =? 0) && (t <? now))
    (set_initRemoteTime 0 ;;
     emit RemoteInit ;;
     emit RemoteStartAdvertising).

Definition sleepTimer (now : Z) (i : TickInput) : M unit :=
  t <- get deepSleepTime ;;
  when (negb (t =? 0) && (t <? now) && negb (petalsMoving i))
    (set_deepSleepTime 0 ;;
     enterDeepSleep).

(** The five inactivity conditions of line 132. *)
Definition inactive (charging : bool) (i : TickInput) : bool :=
  negb charging && negb (lit i) && idle i && (petalOpenLevel i =? 0)
  && negb (connected i).

Definition planInactivitySleep (i : TickInput) : M unit :=
  isDead <- get batteryDead ;;
  when (deepSleepEnabled && negb isDead)
    (charging <- get batteryCharging ;;
     if inactive charging i then
       t <- get deepSleepTime ;;
       when (t =? 0)
         (planDeepSleep (plan_clock i) DEEP_SLEEP_INACTIVITY_TIMEOUT)
     else
       t <- get deepSleepTime ;;
       when (negb (t =? 0)) (set_deepSleepTime 0)).

Definition loop (i : TickInput) : M unit :=
  emit FloowerUpdate ;;
  let now := to_long (millis (clock i)) in
  periodicTimer now i ;;
  remoteTimer now ;;
  sleepTimer now i ;;
  planInactivitySleep i ;;
  when (idle i) (emit (Delay 10)).

(** The part of [loop] that precedes the sleep timer (lines 111-123). *)
Definition loopBeforeSleepTimer (i : TickInput) : M unit :=
  emit FloowerUpdate ;;
  let now := to_long (millis (clock i)) in
  periodicTimer now i ;;
  remoteTimer now.

(** Consecutive calls of [loop], one per input, until the processor is
    suspended. *)
Fixpoint run (ticks : list TickInput) : M unit :=
  match ticks with
  | [] => ret tt
  | i :: rest => loop i ;; run rest
  end.


(** ** Traces *)

(** The events a computation appends to the trace. *)
Definition emitted {A : Type} (m : M A) (s : State) : list Event :=
  skipn (length (trace s)) (trace (exec m s)).

(** The calls by which [powerWatchDog] samples the battery or acts on the
    sample. *)
Definition isSampleEvent (e : Event) : bool :=
  match e with
  | ReadBatteryState _ | SetBatteryLevel _ _ | SetLowPowerMode _
  | SetColor _ _ _ | SetPetalsOpenLevel _ _ => true
  | _ => false
  end.

Definition isWdtReset (e : Event) : bool :=
  match e with WdtReset => true | _ => false end.

Definition isRemoteInit (e : Event) : bool :=
  match e with RemoteInit => true | _ => false end.

Definition isDeepSleepStart (e : Event) : bool :=
  match e with DeepSleepStart => true | _ => false end.

Definition isDelay (e : Event) : bool :=
  match e with Delay _ => true | _ => false end.

Definition isReadBatteryState (e : Event) : bool :=
  match e with ReadBatteryState _ => true | _ => false end.

Definition count (p : Event -> bool) (l : list Event) : nat :=
  length (filter p l).

(** ** Concrete inputs *)

Definition healthy : Battery := {| voltage := 40 # 10; level := 80 |}.
Definition sagging : Battery := {| voltage := 33 # 10; level := 2 |}.

(** A cold boot on a healthy battery, 100 ms after power-on. *)
Definition boot_healthy : BootInput :=
  {| wakeup_touchpad := false; boot_usb := false;
     calibration := healthy; first_reading := healthy;
     second_reading := healthy;
     dead_clock := 100; remote_clock := 100; periodic_clock := 100;
     initRemoteOnStartup := true |}.

(** A cold boot on a battery that reads 3.3 V twice. *)
Definition boot_dead : BootInput :=
  {| wakeup_touchpad := false; boot_usb := false;
     calibration := sagging; first_reading := sagging;
     second_reading := sagging;
     dead_clock := 600; remote_clock := 600; periodic_clock := 600;
     initRemoteOnStartup := true |}.

(** A tick at [clk] on battery [b]: open, lit and moving petals, no remote
    connected. *)
Definition busy_tick (clk : Z) (usb : bool) (b : Battery) : TickInput :=
  {| clock := clk; usbPowered := usb; battery := b; watchdog_clock := clk;
     petalsMoving := true; lit := true; idle := false; petalOpenLevel := 100;
     connected := false; plan_clock := clk |}.

(** A tick at [clk] on battery [b]: closed, dark and idle petals, no remote
    connected. *)
Definition quiet_tick (clk : Z) (usb : bool) (b : Battery) : TickInput :=
  {| clock := clk; usbPowered := usb; battery := b; watchdog_clock := clk;
     petalsMoving := false; lit := false; idle := true; petalOpenLevel := 0;
     connected := false; plan_clock := clk |}.

(** The state after a healthy boot and one periodic operation, at 3101 ms,
    that reads 3.3 V while the petals move: the battery is dead. *)
Definition died_at_runtime : State :=
  exec (run [busy_tick 3101 false sagging]) (exec (setup boot_healthy) power_on).

(** Consecutive periodic samples, one per input. *)
Fixpoint watch (enter leave dead : Q) (samples : list TickInput) : M unit :=
  match samples with
  | [] => ret tt
  | i :: rest =>
      powerWatchDogWith enter leave dead i ;; watch enter leave dead rest
  end.

(** A state in low-power mode, as a boot on a dead battery leaves it. *)
Definition booted_dead : State := exec (setup boot_dead) power_on.

(** A running state in low-power mode. *)
Definition low_power_state : State :=
  {| batteryDead := false; batteryCharging := false;
     deepSleepTime := 0; periodicOperationsTime := 3100; initRemoteTime := 0;
     lowPowerMode := true; trace := [] |}.

Definition reading (v : Q) : Battery := {| voltage := v; level := 50 |}.

(** The readings on which [setup] finds the battery dead (lines 77-85). *)
Definition bootDead (b : BootInput) : bool :=
  negb (boot_usb b)
  && Qltb (voltage (first_reading b)) POWER_DEAD_THRESHOLD
  && Qltb (voltage (second_reading b)) POWER_DEAD_THRESHOLD.

Definition isSetBatteryLevel (e : Event) : bool :=
  match e with SetBatteryLevel _ _ => true | _ => false end.

(** ** The sleep scheduler *)

(** The test of line 124, on the state in which it is evaluated. *)
Definition sleepDue (now : Z) (i : TickInput) (s : State) : bool :=
  negb (deepSleepTime s =? 0) && (deepSleepTime s <? now)
  && negb (petalsMoving i).

(** The tests of lines 115 and 119. *)
Definition periodicDue (now : Z) (s : State) : bool :=
  negb (periodicOperationsTime s =? 0) && (periodicOperationsTime s <? now).

Definition remoteDue (now : Z) (s : State) : bool :=
  negb (initRemoteTime s =? 0) && (initRemoteTime s <? now).

(** The part of [loop] that follows the sleep timer (lines 129-146). *)
Definition loopAfterSleepTimer (i : TickInput) : M unit :=
  planInactivitySleep i ;;
  when (idle i) (emit (Delay 10)).

(** A tick at [clk] with closed, dark and idle petals and a remote
    connected. *)
Definition link_up_tick (clk : Z) : TickInput :=
  {| clock := clk; usbPowered := false; battery := healthy;
     watchdog_clock := clk;
     petalsMoving := false; lit := false; idle := true; petalOpenLevel := 0;
     connected := true; plan_clock := clk |}.

(** After a healthy boot: a quiet tick at 200 ms, which arms the sleep
    deadline, then one quiet tick every 3101 ms up to 58919 ms. *)
Definition armed_since_200 : State :=
  exec (run (quiet_tick 200 false healthy
             :: map (fun k => quiet_tick (3101 * Z.of_nat k) false healthy)
                    (seq 1 19)))
       (exec (setup boot_healthy) power_on).

(** A running state, 60 s before the 32-bit clock wraps, with no sleep
    deadline armed. *)
Definition awake_before_wrap : State :=
  {| batteryDead := false; batteryCharging := false;
     deepSleepTime := 0; periodicOperationsTime := - 58000;
     initRemoteTime := 0; lowPowerMode := false; trace := [] |}.

(** One tick a second after a boot on a dead battery, then the tick that
    follows the five seconds of warning. *)
Definition dead_boot_ticks : list TickInput :=
  [busy_tick 1000 false sagging; busy_tick 2000 false sagging;
   busy_tick 3000 false sagging; busy_tick 4000 false sagging;
   busy_tick 5000 false sagging; quiet_tick 5601 false sagging].

(** ** The heartbeat of the watchdog *)

(** The clock readings of the ticks of a run on which the watchdog is
    reset. *)
Fixpoint resetTimes (ticks : list TickInput) (s : State) : list Z :=
  match ticks with
  | [] => []
  | i :: rest =>
      (if (0 <? count isWdtReset (emitted (loop i) s))%nat
       then [to_long (millis (clock i))] else [])
      ++ (if returns (loop i) s then resetTimes rest (exec (loop i) s) else [])
  end.

(** Each element of [l] follows its predecessor ([prev] for the first) by
    more than [lo] and at most [hi]. *)
Fixpoint spaced (lo hi prev : Z) (l : list Z) : Prop :=
  match l with
  | [] => True
  | x :: rest => lo < x - prev <= hi /\ spaced lo hi x rest
  end.

(** [loop] is called at least every [d] milliseconds: each tick follows the
    previous one (the reading [prev] for the first) by at most [d], and the
    clock has not wrapped. *)
Fixpoint paced (d prev : Z) (ticks : list TickInput) : Prop :=
  match ticks with
  | [] => True
  | i :: rest =>
      prev <= clock i <= prev + d /\
      0 <= clock i /\ clock i + PERIODIC_OPERATIONS_INTERVAL < 2 ^ 31 /\
      paced d (clock i) rest
  end.

(** After a healthy boot at 100 ms, a tick every 500 ms up to 10100 ms. *)
Definition steady_ticks : list TickInput :=
  map (fun k => busy_tick (100 + 500 * Z.of_nat k) false healthy) (seq 1 20).

(** ** Conditions on the ticks of a run *)

(** A tick on which the sleep deadline [deadline] cannot fire: its clock
    reading is not later than the deadline, or the petals move. *)
Definition notYetDue (deadline : Z) (i : TickInput) : Prop :=
  to_long (millis (clock i)) <= deadline \/ petalsMoving i = true.

(** A tick taken, with an unwrapped clock, no later than the inactivity
    timeout after the reading [since]; the clock read when a deadline is
    planned is not earlier than [since]. *)
Definition withinInactivityTimeout (since : Z) (i : TickInput) : Prop :=
  0 <= clock i <= since + DEEP_SLEEP_INACTIVITY_TIMEOUT /\
  0 <= plan_clock i /\ since <= plan_clock i /\
  plan_clock i + DEEP_SLEEP_INACTIVITY_TIMEOUT < 2 ^ 31.
Arguments to_long : simpl never.
Arguments to_ulong : simpl never.
Arguments millis : simpl never.
Arguments Qltb : simpl never.
Arguments Qgeb : simpl never.

(** * Properties *)

(** ** Integers and voltages *)

Lemma Qltb_lt (x y : Q) : Qltb x y = true <-> (x < y)%Q.
Proof. unfold Qltb, Qlt. apply Z.ltb_lt. Qed.

Lemma Qltb_ge (x y : Q) : Qltb x y = false <-> (y <= x)%Q.
Proof. unfold Qltb, Qle. apply Z.ltb_ge. Qed.

Lemma Qgeb_le (x y : Q) : Qgeb x y = true <-> (y <= x)%Q.
Proof. unfold Qgeb. apply Qle_bool_iff. Qed.

Lemma Qgeb_lt (x y : Q) : Qgeb x y = false <-> (x < y)%Q.
Proof.
  unfold Qgeb, Qle_bool, Qlt. rewrite Z.leb_gt. reflexivity.
Qed.

Lemma to_long_small (z : Z) : - 2 ^ 31 <= z < 2 ^ 31 -> to_long z = z.
Proof.
  intros H. unfold to_long. rewrite Z.mod_small; lia.
Qed.

Lemma to_ulong_small (z : Z) : 0 <= z < 2 ^ 32 -> to_ulong z = z.
Proof. intros H. unfold to_ulong. apply Z.mod_small; lia. Qed.

Lemma to_long_to_ulong (z : Z) : to_long (to_ulong z) = to_long z.
Proof.
  unfold to_long, to_ulong.
  rewrite Zplus_mod_idemp_l. reflexivity.
Qed.

Lemma to_long_range (z : Z) : - 2 ^ 31 <= to_long z < 2 ^ 31.
Proof.
  unfold to_long.
  pose proof (Z.mod_pos_bound (z + 2 ^ 31) (2 ^ 32) ltac:(lia)). lia.
Qed.

(** A deadline [timeout] after a clock reading, when nothing wraps. *)
Lemma deadline_small (clk timeout : Z) :
  0 <= clk -> 0 <= timeout -> clk + timeout < 2 ^ 31 ->
  to_long (to_ulong (millis clk + timeout)) = clk + timeout.
Proof.
  intros H0 H1 H2. rewrite to_long_to_ulong. unfold millis.
  rewrite to_ulong_small by lia. apply to_long_small. lia.
Qed.

Lemma now_small (clk : Z) :
  0 <= clk < 2 ^ 31 -> to_long (millis clk) = clk.
Proof.
  intros H. unfold millis. rewrite to_ulong_small by lia.
  apply to_long_small. lia.
Qed.

(** ** Computations only append to the trace *)

Ltac unfold_sketch :=
  unfold loop, loopBeforeSleepTimer, periodicTimer, remoteTimer, sleepTimer,
    planInactivitySleep, periodicOperation, powerWatchDog, powerWatchDogWith,
    enterDeepSleep, planDeepSleep, configure, setLowPowerMode, isLowPowerMode,
    set_batteryDead, set_batteryCharging, set_deepSleepTime,
    set_periodicOperationsTime, set_initRemoteTime, emit, get, when, halt,
    bind, ret in *.

Ltac case_ifs :=
  repeat match goal with
         | |- context [if ?c then _ else _] => destruct c eqn:?; simpl
         end.

Lemma skipn_length_app {A : Type} (l k : list A) :
  skipn (length l) (l ++ k) = k.
Proof. induction l as [|a l IH]; simpl; auto. Qed.

Lemma emitted_app {A : Type} (m : M A) (s : State) (evs : list Event) :
  trace (exec m s) = trace s ++ evs -> emitted m s = evs.
Proof. intros H. unfold emitted. rewrite H. apply skipn_length_app. Qed.

Ltac norm_trace := repeat rewrite <- app_assoc; simpl app.

(** ** The watchdog of the battery *)

(** In dead mode [powerWatchDog] returns at once: no probe is read, nothing
    is called and no variable is written. *)
Lemma powerWatchDogWith_dead (enter leave dead : Q) (i : TickInput) (s : State) :
  batteryDead s = true ->
  powerWatchDogWith enter leave dead i s = (Some tt, s).
Proof.
  intros H. unfold powerWatchDogWith, bind, get. rewrite H. reflexivity.
Qed.

Lemma loop_dead (i : TickInput) (s : State) :
  batteryDead s = true ->
  batteryDead (exec (loop i) s) = true /\
  lowPowerMode (exec (loop i) s) = lowPowerMode s /\
  exists evs, trace (exec (loop i) s) = trace s ++ evs /\
              forallb (fun e => negb (isSampleEvent e)) evs = true.
Proof.
  intros H. destruct s as [bd bc dst pot irt low tr]. simpl in H. subst bd.
  unfold exec. unfold_sketch. simpl. case_ifs;
    (split; [reflexivity | split; [reflexivity | ]]);
    norm_trace; eexists; (split; [reflexivity | reflexivity]).
Qed.

Lemma run_cons (i : TickInput) (rest : list TickInput) (s : State) :
  run (i :: rest) s =
  match loop i s with
  | (Some _, s') => run rest s'
  | (None, s') => (None, s')
  end.
Proof. reflexivity. Qed.

Lemma exec_run_cons (i : TickInput) (rest : list TickInput) (s : State) :
  exec (run (i :: rest)) s =
  if returns (loop i) s then exec (run rest) (exec (loop i) s)
  else exec (loop i) s.
Proof.
  unfold exec, returns. rewrite run_cons.
  destruct (loop i s) as [[u|] s']; reflexivity.
Qed.

Lemma run_dead (ticks : list TickInput) (s : State) :
  batteryDead s = true ->
  batteryDead (exec (run ticks) s) = true /\
  lowPowerMode (exec (run ticks) s) = lowPowerMode s /\
  exists evs, trace (exec (run ticks) s) = trace s ++ evs /\
              forallb (fun e => negb (isSampleEvent e)) evs = true.
Proof.
  revert s. induction ticks as [|i rest IH]; intros s H.
  - split; [exact H | split; [reflexivity | ]].
    exists []. rewrite app_nil_r. split; reflexivity.
  - destruct (loop_dead i s H) as (Hd & Hl & evs & Ht & Hq).
    rewrite exec_run_cons. destruct (returns (loop i) s).
    + destruct (IH _ Hd) as (Hd' & Hl' & evs' & Ht' & Hq').
      split; [exact Hd' | split; [congruence | ]].
      exists (evs ++ evs'). split.
      * rewrite Ht', Ht, app_assoc. reflexivity.
      * rewrite forallb_app, Hq, Hq'. reflexivity.
    + split; [exact Hd | split; [exact Hl | ]].
      exists evs. split; assumption.
Qed.

(** C1. Dead mode is terminal.  Once [batteryDead] is true, a periodic
    battery sample ([powerWatchDog]) returns without reading a probe,
    calling a collaborator or writing a variable, and after any number of
    calls of [loop] the power mode is still [Dead], the low-power flag is
    what it was, and no call that samples the battery or acts on a sample
    has been made. *)
Theorem dead_mode_is_terminal
  (s : State) (i : TickInput) (ticks : list TickInput) :
  batteryDead s = true ->
  powerWatchDog i s = (Some tt, s) /\
  powerMode (exec (run ticks) s) = Dead /\
  lowPowerMode (exec (run ticks) s) = lowPowerMode s /\
  forallb (fun e => negb (isSampleEvent e)) (emitted (run ticks) s) = true.
Proof.
  intros H. split.
  - apply powerWatchDogWith_dead, H.
  - destruct (run_dead ticks s H) as (Hd & Hl & evs & Ht & Hq).
    split; [unfold powerMode; rewrite Hd; reflexivity | ].
    split; [exact Hl | ].
    rewrite (emitted_app _ _ _ Ht). exact Hq.
Qed.

Lemma dead_mode_is_terminal_witness :
  batteryDead died_at_runtime = true /\
  powerMode
    (exec (run [busy_tick 6102 true healthy; quiet_tick 6200 true healthy])
          died_at_runtime) = Dead.
Proof.
  split; [reflexivity | ].
  apply (dead_mode_is_terminal died_at_runtime (busy_tick 6102 true healthy)
           [busy_tick 6102 true healthy; quiet_tick 6200 true healthy]).
  reflexivity.
Defined.

(** What one sample does when the battery is not dead, branch by branch. *)
Lemma powerWatchDogWith_alive (enter leave dead : Q) (i : TickInput) (s : State) :
  batteryDead s = false ->
  let v := voltage (battery i) in
  let s' := exec (powerWatchDogWith enter leave dead i) s in
  let probe := [ReadBatteryState (battery i);
                SetBatteryLevel (level (battery i)) (usbPowered i)] in
  returns (powerWatchDogWith enter leave dead i) s = true /\
  batteryCharging s' = usbPowered i /\
  if usbPowered i then
    batteryDead s' = false /\ lowPowerMode s' = false /\
    deepSleepTime s' = deepSleepTime s /\
    trace s' = trace s ++ probe ++ [SetLowPowerMode false]
  else if Qltb v dead then
    batteryDead s' = true /\ lowPowerMode s' = lowPowerMode s /\
    deepSleepTime s' = to_long (to_ulong (millis (watchdog_clock i) + 0)) /\
    trace s' = trace s ++ probe ++ [SetColor colorBlack TRANSITION 2500;
                                    SetPetalsOpenLevel 0 2500]
  else if negb (lowPowerMode s) && Qltb v enter then
    batteryDead s' = false /\ lowPowerMode s' = true /\
    deepSleepTime s' = deepSleepTime s /\
    trace s' = trace s ++ probe ++ [SetLowPowerMode true]
  else if lowPowerMode s && Qgeb v leave then
    batteryDead s' = false /\ lowPowerMode s' = false /\
    deepSleepTime s' = deepSleepTime s /\
    trace s' = trace s ++ probe ++ [SetLowPowerMode false]
  else
    batteryDead s' = false /\ lowPowerMode s' = lowPowerMode s /\
    deepSleepTime s' = deepSleepTime s /\
    trace s' = trace s ++ probe.
Proof.
  intros H. destruct s as [bd bc dst pot irt low tr]. simpl in H. subst bd.
  unfold exec, returns. unfold_sketch. simpl.
  destruct (usbPowered i); simpl.
  - norm_trace. repeat split.
  - destruct (Qltb (voltage (battery i)) dead); simpl.
    + norm_trace. repeat split.
    + destruct (negb low && Qltb (voltage (battery i)) enter); simpl.
      * norm_trace. repeat split.
      * destruct (low && Qgeb (voltage (battery i)) leave); simpl;
          norm_trace; repeat split.
Qed.

(** The other timers and flags are not touched by a sample. *)
Lemma powerWatchDogWith_frame (enter leave dead : Q) (i : TickInput) (s : State) :
  let s' := exec (powerWatchDogWith enter leave dead i) s in
  periodicOperationsTime s' = periodicOperationsTime s /\
  initRemoteTime s' = initRemoteTime s.
Proof.
  destruct s as [bd bc dst pot irt low tr].
  unfold exec. unfold_sketch. simpl. case_ifs; split; reflexivity.
Qed.

(** C6, as amended. A periodic sample taken while external power is present
    and the mode is not [Dead] makes the mode [Normal], whatever the voltage
    and whether the mode was [Normal] or [LowPower]: the low-power flag is
    cleared, and after the two probe calls the only call is
    [setLowPowerMode(false)], so neither the dead-battery branch nor the
    low-power-enter branch is taken. *)
Theorem external_power_restores_normal (s : State) (i : TickInput) :
  batteryDead s = false ->
  usbPowered i = true ->
  powerMode (exec (powerWatchDog i) s) = Normal /\
  lowPowerMode (exec (powerWatchDog i) s) = false /\
  batteryDead (exec (powerWatchDog i) s) = false /\
  deepSleepTime (exec (powerWatchDog i) s) = deepSleepTime s /\
  emitted (powerWatchDog i) s =
    [ReadBatteryState (battery i); SetBatteryLevel (level (battery i)) true;
     SetLowPowerMode false].
Proof.
  intros Hd Hu.
  pose proof (powerWatchDogWith_alive POWER_LOW_ENTER_THRESHOLD
                POWER_LOW_LEAVE_THRESHOLD POWER_DEAD_THRESHOLD i s Hd) as H.
  cbv zeta in H. rewrite Hu in H. destruct H as (_ & _ & Hb & Hl & Ht & Htr).
  fold (powerWatchDog i) in *.
  unfold powerMode. rewrite Hb, Hl.
  repeat split; try assumption.
  apply emitted_app. exact Htr.
Qed.

Lemma external_power_restores_normal_witness :
  powerMode low_power_state = LowPower /\
  powerMode (exec (powerWatchDog (busy_tick 3101 true sagging)) low_power_state)
  = Normal.
Proof.
  split; [reflexivity | ].
  apply (external_power_restores_normal low_power_state
           (busy_tick 3101 true sagging)); reflexivity.
Defined.

(** C6, as stated, fails in dead mode: after a healthy boot the battery reads
    3.3 V at 3101 ms and the mode becomes [Dead]; at 6102 ms the periodic
    operation runs again (the watchdog is reset) with external power present,
    and the mode is still [Dead], not [Normal]. *)
Lemma external_power_keeps_dead_mode :
  usbPowered (busy_tick 6102 true healthy) = true /\
  emitted (loop (busy_tick 6102 true healthy)) died_at_runtime
  = [FloowerUpdate; WdtReset; Acty] /\
  powerMode (exec (powerWatchDog (busy_tick 6102 true healthy)) died_at_runtime)
  <> Normal /\
  powerMode (exec (loop (busy_tick 6102 true healthy)) died_at_runtime)
  <> Normal.
Proof.
  split; [reflexivity | ]. split; [vm_compute; reflexivity | ].
  split; vm_compute; discriminate.
Qed.

(** C7, as amended. Outside dead mode every periodic sample reads the
    battery and forwards the level read, together with the
    externally-powered flag, to the remote, before acting on the sample; in
    dead mode the periodic sample returns at once and forwards nothing. *)
Theorem sample_forwards_battery_level (s : State) (i : TickInput) :
  batteryDead s = false ->
  (exists rest,
      emitted (powerWatchDog i) s =
      ReadBatteryState (battery i)
      :: SetBatteryLevel (level (battery i)) (usbPowered i) :: rest) /\
  (forall dead : State, batteryDead dead = true ->
                        emitted (powerWatchDog i) dead = []).
Proof.
  intros Hd. split.
  - pose proof (powerWatchDogWith_alive POWER_LOW_ENTER_THRESHOLD
                  POWER_LOW_LEAVE_THRESHOLD POWER_DEAD_THRESHOLD i s Hd) as H.
    cbv zeta in H. destruct H as (_ & _ & H).
    fold (powerWatchDog i) in *.
    repeat match type of H with
           | (if ?c then _ else _) => destruct c
           end;
      destruct H as (_ & _ & _ & Htr);
      eexists; apply emitted_app; rewrite Htr; simpl; reflexivity.
  - intros d Hdead. apply emitted_app. unfold powerWatchDog.
    unfold exec. rewrite powerWatchDogWith_dead by exact Hdead.
    simpl. rewrite app_nil_r. reflexivity.
Qed.

Lemma sample_forwards_battery_level_witness :
  batteryDead low_power_state = false /\
  exists rest,
    emitted (powerWatchDog (busy_tick 3101 false healthy)) low_power_state =
    ReadBatteryState healthy :: SetBatteryLevel 80 false :: rest.
Proof.
  split; [reflexivity | ].
  apply (sample_forwards_battery_level low_power_state
           (busy_tick 3101 false healthy)). reflexivity.
Defined.

(** C7, as stated, fails in dead mode: the periodic operation of the tick at
    6102 ms runs (the watchdog is reset) and forwards no battery level. *)
Lemma dead_mode_sample_forwards_nothing :
  batteryDead died_at_runtime = true /\
  emitted (loop (busy_tick 6102 false healthy)) died_at_runtime
  = [FloowerUpdate; WdtReset; Acty] /\
  count isSetBatteryLevel
        (emitted (loop (busy_tick 6102 false healthy)) died_at_runtime) = 0%nat /\
  emitted (powerWatchDog (busy_tick 6102 false healthy)) died_at_runtime = [].
Proof. repeat split; vm_compute; reflexivity. Qed.

(** ** The boot-time check *)

Ltac unfold_setup :=
  unfold setup, configure, planDeepSleep, setLowPowerMode,
    set_batteryDead, set_batteryCharging, set_deepSleepTime,
    set_periodicOperationsTime, set_initRemoteTime, emit, get, when,
    bind, ret in *.

(** [setup] finds the battery dead exactly when the device is not externally
    powered and two readings, half a second apart, are both below the dead
    threshold. *)
Lemma setup_batteryDead (b : BootInput) :
  batteryDead (exec (setup b) power_on) = bootDead b.
Proof.
  unfold exec, bootDead, power_on. unfold_setup. simpl.
  destruct (wakeup_touchpad b), (boot_usb b); simpl;
    destruct (Qltb (voltage (first_reading b)) POWER_DEAD_THRESHOLD); simpl;
    destruct (Qltb (voltage (second_reading b)) POWER_DEAD_THRESHOLD); simpl;
    destruct (initRemoteOnStartup b); reflexivity.
Qed.

(** On the dead path the second reading follows the first after the settle
    delay, and the low-power mode is switched on; on the other path the
    low-power mode is not touched. *)
Lemma setup_trace (b : BootInput) :
  if bootDead b then
    exists pre,
      trace (exec (setup b) power_on) =
      pre ++ [ReadBatteryState (first_reading b); Delay 500;
              ReadBatteryState (second_reading b);
              SetLowPowerMode true; SetColor colorRed FLASH 1000]
  else
    forall on, ~ In (SetLowPowerMode on) (trace (exec (setup b) power_on)).
Proof.
  unfold exec, bootDead, power_on. unfold_setup. simpl.
  destruct (wakeup_touchpad b), (boot_usb b); simpl;
    destruct (Qltb (voltage (first_reading b)) POWER_DEAD_THRESHOLD); simpl;
    destruct (Qltb (voltage (second_reading b)) POWER_DEAD_THRESHOLD); simpl;
    destruct (initRemoteOnStartup b); simpl;
    try (intros on Hin; repeat (destruct Hin as [Hin | Hin]; [discriminate | ]);
         exact Hin);
    match goal with
    | |- exists pre, ?l = _ =>
        let n := eval compute in (length l - 5)%nat in
        exists (firstn n l); reflexivity
    end.
Qed.

(** C2. On the runtime path the dead-battery check is not re-verified: a
    periodic sample taken on battery power whose single reading is below
    [POWER_DEAD_THRESHOLD] commits to dead mode at once; the battery is read
    once and no delay is made.  (The boot-time check does re-verify, see
    [setup_batteryDead] and [setup_trace].) *)
Theorem runtime_dead_commit_is_not_reverified (s : State) (i : TickInput) :
  batteryDead s = false ->
  usbPowered i = false ->
  (voltage (battery i) < POWER_DEAD_THRESHOLD)%Q ->
  batteryDead (exec (powerWatchDog i) s) = true /\
  emitted (powerWatchDog i) s =
    [ReadBatteryState (battery i); SetBatteryLevel (level (battery i)) false;
     SetColor colorBlack TRANSITION 2500; SetPetalsOpenLevel 0 2500] /\
  count isReadBatteryState (emitted (powerWatchDog i) s) = 1%nat /\
  count isDelay (emitted (powerWatchDog i) s) = 0%nat.
Proof.
  intros Hd Hu Hv. apply Qltb_lt in Hv.
  pose proof (powerWatchDogWith_alive POWER_LOW_ENTER_THRESHOLD
                POWER_LOW_LEAVE_THRESHOLD POWER_DEAD_THRESHOLD i s Hd) as H.
  cbv zeta in H. rewrite Hu, Hv in H.
  destruct H as (_ & _ & Hb & _ & _ & Htr).
  fold (powerWatchDog i) in *.
  apply emitted_app in Htr. rewrite Htr.
  repeat split. exact Hb.
Qed.

Lemma runtime_dead_commit_is_not_reverified_witness :
  batteryDead (exec (setup boot_healthy) power_on) = false /\
  batteryDead (exec (powerWatchDog (busy_tick 3101 false sagging))
                    (exec (setup boot_healthy) power_on)) = true.
Proof.
  split; [reflexivity | ].
  apply (runtime_dead_commit_is_not_reverified
           (exec (setup boot_healthy) power_on) (busy_tick 3101 false sagging));
    reflexivity.
Defined.

(** C10. With the shipped thresholds a periodic sample whose voltage is not
    negative never takes the branch that enters low-power mode:
    [setLowPowerMode(true)] is not called and the flag is on after the
    sample only if it was on before.  [setup] calls [setLowPowerMode(true)]
    exactly when it finds the battery dead. *)
Theorem low_power_entry_is_unreachable (s : State) (i : TickInput) :
  (0 <= voltage (battery i))%Q ->
  ~ In (SetLowPowerMode true) (emitted (powerWatchDog i) s) /\
  (lowPowerMode (exec (powerWatchDog i) s) = true -> lowPowerMode s = true) /\
  (forall b : BootInput,
      In (SetLowPowerMode true) (trace (exec (setup b) power_on)) <->
      batteryDead (exec (setup b) power_on) = true).
Proof.
  intros Hv. apply Qltb_ge in Hv.
  assert (Hsetup : forall b : BootInput,
             In (SetLowPowerMode true) (trace (exec (setup b) power_on)) <->
             batteryDead (exec (setup b) power_on) = true).
  { intros b. rewrite setup_batteryDead. pose proof (setup_trace b) as T.
    destruct (bootDead b).
    - destruct T as (pre & ->). split; [reflexivity | intros _].
      apply in_or_app. right. simpl. tauto.
    - split; [intros Hin; elim (T true Hin) | discriminate]. }
  destruct (batteryDead s) eqn:Hd.
  - unfold powerWatchDog, emitted, exec.
    rewrite powerWatchDogWith_dead by exact Hd. simpl.
    rewrite skipn_all.
    split; [intros [] | split; [auto | exact Hsetup]].
  - pose proof (powerWatchDogWith_alive POWER_LOW_ENTER_THRESHOLD
                  POWER_LOW_LEAVE_THRESHOLD POWER_DEAD_THRESHOLD i s Hd) as H.
    cbv zeta in H. fold (powerWatchDog i) in *.
    unfold POWER_LOW_ENTER_THRESHOLD in H at 1. rewrite Hv in H.
    rewrite andb_false_r in H. destruct H as (_ & _ & H).
    repeat match type of H with
           | (if ?c then _ else _) => destruct c eqn:?
           end;
      destruct H as (_ & Hl & _ & Htr); apply emitted_app in Htr;
      rewrite Htr; (split; [ | split; [ | exact Hsetup]]);
      try (intros Hin; simpl in Hin; intuition discriminate);
      try congruence.
Qed.

Lemma low_power_entry_is_unreachable_witness :
  (0 <= voltage (battery (busy_tick 3101 false healthy)))%Q /\
  ~ In (SetLowPowerMode true)
       (emitted (powerWatchDog (busy_tick 3101 false healthy))
                (exec (setup boot_healthy) power_on)).
Proof.
  split; [vm_compute; discriminate | ].
  apply (low_power_entry_is_unreachable (exec (setup boot_healthy) power_on)
           (busy_tick 3101 false healthy)).
  vm_compute. discriminate.
Defined.

(** ** Hysteresis *)

Lemma powerWatchDogWith_returns (enter leave dead : Q) (i : TickInput) (s : State) :
  powerWatchDogWith enter leave dead i s
  = (Some tt, exec (powerWatchDogWith enter leave dead i) s).
Proof.
  destruct s as [bd bc dst pot irt low tr].
  unfold exec. unfold_sketch. simpl. case_ifs; reflexivity.
Qed.

Lemma exec_watch_cons (enter leave dead : Q) (i : TickInput)
      (rest : list TickInput) (s : State) :
  exec (watch enter leave dead (i :: rest)) s
  = exec (watch enter leave dead rest)
         (exec (powerWatchDogWith enter leave dead i) s).
Proof.
  unfold exec at 1. simpl. unfold bind.
  rewrite powerWatchDogWith_returns. reflexivity.
Qed.

(** A sample on battery power whose voltage lies in the band between the
    two thresholds leaves the low-power flag alone. *)
Lemma sample_in_band (enter leave dead : Q) (i : TickInput) (s : State) :
  usbPowered i = false ->
  (enter <= voltage (battery i))%Q ->
  (voltage (battery i) < leave)%Q ->
  lowPowerMode (exec (powerWatchDogWith enter leave dead i) s) = lowPowerMode s /\
  (batteryDead s = true ->
   batteryDead (exec (powerWatchDogWith enter leave dead i) s) = true).
Proof.
  intros Hu He Hl. apply Qltb_ge in He. apply Qgeb_lt in Hl.
  destruct (batteryDead s) eqn:Hd.
  - unfold exec. rewrite powerWatchDogWith_dead by exact Hd. simpl. auto.
  - pose proof (powerWatchDogWith_alive enter leave dead i s Hd) as H.
    cbv zeta in H. rewrite Hu, He, Hl, !andb_false_r in H.
    destruct H as (_ & _ & H).
    destruct (Qltb (voltage (battery i)) dead);
      destruct H as (_ & H & _); split; (exact H || discriminate).
Qed.

(** C3, as amended. The shipped thresholds are equal (both 0 V), so
    [POWER_LOW_LEAVE_THRESHOLD] is not strictly greater than
    [POWER_LOW_ENTER_THRESHOLD] and no voltage lies strictly between them.
    For the watchdog run with any thresholds, every sequence of samples
    taken on battery power whose voltages stay strictly between the enter
    and the leave threshold leaves the low-power flag as it was: the mode
    does not toggle between [Normal] and [LowPower] (it stays, or becomes
    [Dead]). *)
Theorem hysteresis_band_keeps_low_power_flag
  (enter leave dead : Q) (samples : list TickInput) (s : State) :
  Forall (fun i => usbPowered i = false /\
                   (enter < voltage (battery i))%Q /\
                   (voltage (battery i) < leave)%Q) samples ->
  POWER_LOW_LEAVE_THRESHOLD = POWER_LOW_ENTER_THRESHOLD /\
  lowPowerMode (exec (watch enter leave dead samples) s) = lowPowerMode s /\
  (powerMode (exec (watch enter leave dead samples) s) = powerMode s \/
   powerMode (exec (watch enter leave dead samples) s) = Dead).
Proof.
  intros HF. split; [reflexivity | ].
  assert (H : lowPowerMode (exec (watch enter leave dead samples) s)
              = lowPowerMode s /\
              (batteryDead s = true ->
               batteryDead (exec (watch enter leave dead samples) s) = true)).
  { revert s. induction HF as [|i rest (Hu & He & Hl) _ IH]; intros s.
    - split; auto.
    - rewrite exec_watch_cons.
      destruct (sample_in_band enter leave dead i s Hu (Qlt_le_weak _ _ He) Hl)
        as (H1 & H2).
      destruct (IH (exec (powerWatchDogWith enter leave dead i) s)) as (H3 & H4).
      split; [congruence | auto]. }
  destruct H as (Hlow & Hdead). split; [exact Hlow | ].
  unfold powerMode. rewrite Hlow.
  destruct (batteryDead (exec (watch enter leave dead samples) s)) eqn:E;
    [right; reflexivity | left].
  destruct (batteryDead s); [ | reflexivity].
  specialize (Hdead eq_refl). congruence.
Qed.

Lemma hysteresis_band_keeps_low_power_flag_witness :
  Forall (fun i => usbPowered i = false /\
                   (355 # 100 < voltage (battery i))%Q /\
                   (voltage (battery i) < 36 # 10)%Q)
         [busy_tick 3101 false (reading (357 # 100));
          busy_tick 6102 false (reading (359 # 100))] /\
  lowPowerMode
    (exec (watch (355 # 100) (36 # 10) (34 # 10)
                 [busy_tick 3101 false (reading (357 # 100));
                  busy_tick 6102 false (reading (359 # 100))])
          low_power_state) = true.
Proof.
  assert (HF : Forall (fun i => usbPowered i = false /\
                                (355 # 100 < voltage (battery i))%Q /\
                                (voltage (battery i) < 36 # 10)%Q)
                      [busy_tick 3101 false (reading (357 # 100));
                       busy_tick 6102 false (reading (359 # 100))]).
  { repeat constructor. }
  split; [exact HF | ].
  apply (hysteresis_band_keeps_low_power_flag (355 # 100) (36 # 10) (34 # 10)
           [busy_tick 3101 false (reading (357 # 100));
            busy_tick 6102 false (reading (359 # 100))]
           low_power_state HF).
Defined.

(** C3, as stated, fails on the shipped constants: the leave threshold is not
    strictly greater than the enter threshold. *)
Lemma shipped_thresholds_have_no_gap :
  ~ (POWER_LOW_ENTER_THRESHOLD < POWER_LOW_LEAVE_THRESHOLD)%Q.
Proof. vm_compute. discriminate. Qed.

(** ** The structure of one tick *)

Lemma loopBeforeSleepTimer_returns (i : TickInput) (s : State) :
  loopBeforeSleepTimer i s = (Some tt, exec (loopBeforeSleepTimer i) s).
Proof.
  destruct s as [bd bc dst pot irt low tr].
  unfold exec. unfold_sketch. simpl. case_ifs; reflexivity.
Qed.

Lemma loopAfterSleepTimer_returns (i : TickInput) (s : State) :
  loopAfterSleepTimer i s = (Some tt, exec (loopAfterSleepTimer i) s).
Proof.
  destruct s as [bd bc dst pot irt low tr].
  unfold exec, loopAfterSleepTimer. unfold_sketch. simpl.
  case_ifs; reflexivity.
Qed.

(** One tick: the timers that precede the sleep timer always return; then
    either the sleep timer is due, the deadline is cleared and the processor
    is suspended, or the planning block and the idle delay run. *)
Lemma loop_stages (i : TickInput) (s : State) :
  let now := to_long (millis (clock i)) in
  let s1 := exec (loopBeforeSleepTimer i) s in
  loop i s =
  if sleepDue now i s1 then
    (None,
     {| batteryDead := batteryDead s1; batteryCharging := batteryCharging s1;
        deepSleepTime := 0;
        periodicOperationsTime := periodicOperationsTime s1;
        initRemoteTime := initRemoteTime s1; lowPowerMode := lowPowerMode s1;
        trace := trace s1 ++ [EnableTouchpadWakeup; BtStop; DeepSleepStart] |})
  else (Some tt, exec (loopAfterSleepTimer i) s1).
Proof.
  destruct s as [bd bc dst pot irt low tr].
  unfold exec, sleepDue, loopAfterSleepTimer. unfold_sketch. simpl.
  case_ifs; simpl; norm_trace; try reflexivity.
Qed.

(** ** The sleep scheduler *)

(** The planning block: what it leaves in [deepSleepTime]. *)
Lemma loopAfterSleepTimer_plan (i : TickInput) (s : State) :
  let s' := exec (loopAfterSleepTimer i) s in
  batteryDead s' = batteryDead s /\
  batteryCharging s' = batteryCharging s /\
  deepSleepTime s' =
    if batteryDead s then deepSleepTime s
    else if inactive (batteryCharging s) i then
      if deepSleepTime s =? 0
      then to_long (to_ulong (millis (plan_clock i)
                              + DEEP_SLEEP_INACTIVITY_TIMEOUT))
      else deepSleepTime s
    else 0.
Proof.
  destruct s as [bd bc dst pot irt low tr].
  unfold exec, loopAfterSleepTimer. unfold_sketch. simpl.
  destruct bd; simpl.
  - case_ifs; repeat split.
  - destruct (inactive bc i); simpl;
      destruct (dst =? 0) eqn:E; simpl; case_ifs; repeat split;
      apply Z.eqb_eq in E; subst; reflexivity.
Qed.

Lemma loop_returns_iff (i : TickInput) (s : State) :
  returns (loop i) s
  = negb (sleepDue (to_long (millis (clock i))) i
                   (exec (loopBeforeSleepTimer i) s)).
Proof.
  unfold returns. pose proof (loop_stages i s) as H. cbv zeta in H.
  rewrite H.
  destruct (sleepDue (to_long (millis (clock i))) i
                     (exec (loopBeforeSleepTimer i) s)); reflexivity.
Qed.

Lemma exec_loop_returned (i : TickInput) (s : State) :
  returns (loop i) s = true ->
  exec (loop i) s
  = exec (loopAfterSleepTimer i) (exec (loopBeforeSleepTimer i) s).
Proof.
  intros Hr. rewrite loop_returns_iff in Hr.
  unfold exec at 1. pose proof (loop_stages i s) as H. cbv zeta in H.
  rewrite H.
  destruct (sleepDue (to_long (millis (clock i))) i
                     (exec (loopBeforeSleepTimer i) s));
    [discriminate | reflexivity].
Qed.

(** C4, as amended. Deep sleep is enabled ([deepSleepEnabled] is the
    constant true).  On every loop tick that reaches the planning block (the
    sleep timer has not fired earlier in the tick) with the battery not
    dead, and for which the 32-bit deadline computed from the clock,
    [millis() + DEEP_SLEEP_INACTIVITY_TIMEOUT], is not the value 0 that
    stands for unarmed: the deadline is armed after the tick exactly when
    the five inactivity conditions hold (not charging, not lit, idle, open
    level 0, remote not connected); it is newly armed at the clock reading
    of [planDeepSleep] plus the timeout if it was unarmed, kept if it was
    armed, and set unarmed when one of the five conditions is false. *)
Theorem inactivity_arms_sleep_deadline (s : State) (i : TickInput) :
  let s1 := exec (loopBeforeSleepTimer i) s in
  let s' := exec (loop i) s in
  let deadline :=
    to_long (to_ulong (millis (plan_clock i) + DEEP_SLEEP_INACTIVITY_TIMEOUT)) in
  returns (loop i) s = true ->
  batteryDead s' = false ->
  deadline <> 0 ->
  deepSleepEnabled = true /\
  (deepSleepTime s' <> 0 <-> inactive (batteryCharging s') i = true) /\
  (inactive (batteryCharging s') i = true ->
   deepSleepTime s' = if deepSleepTime s1 =? 0 then deadline
                      else deepSleepTime s1) /\
  (inactive (batteryCharging s') i = false -> deepSleepTime s' = 0) /\
  (0 <= plan_clock i ->
   plan_clock i + DEEP_SLEEP_INACTIVITY_TIMEOUT < 2 ^ 31 ->
   deadline = plan_clock i + DEEP_SLEEP_INACTIVITY_TIMEOUT).
Proof.
  intros s1 s' deadline Hr Hd Hz. subst s'.
  rewrite (exec_loop_returned i s Hr) in *. fold s1 in Hd |- *.
  destruct (loopAfterSleepTimer_plan i s1) as (Hbd & Hbc & Hdst).
  rewrite Hbd in Hd. rewrite Hd in Hdst. rewrite Hbc, Hdst.
  fold deadline.
  split; [reflexivity | ].
  split; [ | split; [ | split]].
  - destruct (inactive (batteryCharging s1) i).
    + destruct (deepSleepTime s1 =? 0) eqn:E.
      * split; [reflexivity | intros _; exact Hz].
      * apply Z.eqb_neq in E. split; [reflexivity | intros _; exact E].
    + split; [intros H; elim H; reflexivity | discriminate].
  - intros ->. reflexivity.
  - intros ->. reflexivity.
  - intros H0 H1. unfold deadline. apply deadline_small; [lia | | lia].
    unfold DEEP_SLEEP_INACTIVITY_TIMEOUT. lia.
Qed.

Lemma inactivity_arms_sleep_deadline_witness :
  returns (loop (quiet_tick 200 false healthy))
          (exec (setup boot_healthy) power_on) = true /\
  inactive false (quiet_tick 200 false healthy) = true /\
  deepSleepTime (exec (loop (quiet_tick 200 false healthy))
                      (exec (setup boot_healthy) power_on)) = 60200.
Proof.
  split; [reflexivity | ]. split; [reflexivity | ].
  assert (Hz : to_long (to_ulong (millis (plan_clock (quiet_tick 200 false healthy))
                                  + DEEP_SLEEP_INACTIVITY_TIMEOUT)) <> 0)
    by (vm_compute; discriminate).
  destruct (inactivity_arms_sleep_deadline
              (exec (setup boot_healthy) power_on)
              (quiet_tick 200 false healthy) eq_refl eq_refl Hz)
    as (_ & _ & Harmed & _).
  exact (Harmed eq_refl).
Defined.

(** C4, as stated, fails on two ticks.  First: the deadline was armed at
    60200 ms and the remote connects; on the tick at 60201 ms the deadline
    is armed and one of the five conditions is false, yet the sleep timer,
    which precedes the planning block, fires and the processor is suspended:
    the deadline is not cancelled.  Second: sixty seconds before the 32-bit
    clock wraps all five conditions hold and the tick completes, but the
    deadline computed is 0, which stands for unarmed. *)
Lemma sleep_deadline_not_armed_iff_inactive :
  (deepSleepTime armed_since_200 = 60200 /\
   batteryDead armed_since_200 = false /\
   inactive (batteryCharging armed_since_200) (link_up_tick 60201) = false /\
   returns (loop (link_up_tick 60201)) armed_since_200 = false /\
   emitted (loop (link_up_tick 60201)) armed_since_200
   = [FloowerUpdate; EnableTouchpadWakeup; BtStop; DeepSleepStart]) /\
  (batteryDead awake_before_wrap = false /\
   inactive (batteryCharging awake_before_wrap)
            (quiet_tick (2 ^ 32 - 60000) false healthy) = true /\
   returns (loop (quiet_tick (2 ^ 32 - 60000) false healthy))
           awake_before_wrap = true /\
   deepSleepTime (exec (loop (quiet_tick (2 ^ 32 - 60000) false healthy))
                       awake_before_wrap) = 0).
Proof. repeat split; vm_compute; reflexivity. Qed.

(** The periodic operation that finds the battery dead arms the sleep
    deadline at the clock reading of [planDeepSleep(0)]. *)
Lemma loopBeforeSleepTimer_dies (i : TickInput) (s : State) :
  batteryDead s = false ->
  periodicDue (to_long (millis (clock i))) s = true ->
  usbPowered i = false ->
  Qltb (voltage (battery i)) POWER_DEAD_THRESHOLD = true ->
  batteryDead (exec (loopBeforeSleepTimer i) s) = true /\
  deepSleepTime (exec (loopBeforeSleepTimer i) s)
  = to_long (to_ulong (millis (watchdog_clock i) + 0)).
Proof.
  intros Hd Hp Hu Hv. destruct s as [bd bc dst pot irt low tr].
  unfold periodicDue in Hp. simpl in Hd, Hp. subst bd.
  unfold exec. unfold_sketch. simpl. rewrite Hp. simpl.
  rewrite Hu. simpl. rewrite Hv. simpl.
  case_ifs; split; reflexivity.
Qed.

(** C5, as amended. On any loop tick where, when the sleep timer is
    checked, a deadline is armed ([deepSleepTime] is not 0), the deadline is
    strictly earlier than [now] and the petals are not moving, the scheduler
    fires: the deadline is unarmed, then the suspend action is invoked
    (touchpad wake-up enabled, radio stopped, deep sleep started) and does
    not return.  A deadline armed with timeout 0 by the power-mode
    evaluation of the same iteration is the clock reading of that moment,
    which is not earlier than [now] while the clock has not wrapped: the
    tick does not fire it, whether or not the petals move, and leaves it
    armed for a later tick. *)
Theorem sleep_timer_fires_past_deadline :
  (forall (s : State) (i : TickInput),
      let now := to_long (millis (clock i)) in
      let s1 := exec (loopBeforeSleepTimer i) s in
      deepSleepTime s1 <> 0 ->
      deepSleepTime s1 < now ->
      petalsMoving i = false ->
      returns (loop i) s = false /\
      deepSleepTime (exec (loop i) s) = 0 /\
      trace (exec (loop i) s)
      = trace s1 ++ [EnableTouchpadWakeup; BtStop; DeepSleepStart]) /\
  (forall (s : State) (i : TickInput),
      batteryDead s = false ->
      periodicDue (to_long (millis (clock i))) s = true ->
      usbPowered i = false ->
      (voltage (battery i) < POWER_DEAD_THRESHOLD)%Q ->
      0 <= clock i <= watchdog_clock i ->
      watchdog_clock i < 2 ^ 31 ->
      returns (loop i) s = true /\
      batteryDead (exec (loop i) s) = true /\
      deepSleepTime (exec (loop i) s) = watchdog_clock i).
Proof.
  split.
  - intros s i now s1 Hz Hlt Hm.
    assert (Hdue : sleepDue now i s1 = true).
    { unfold sleepDue. rewrite Hm.
      apply Z.eqb_neq in Hz. apply Z.ltb_lt in Hlt.
      rewrite Hz, Hlt. reflexivity. }
    pose proof (loop_stages i s) as H. cbv zeta in H.
    fold now s1 in H. rewrite Hdue in H.
    unfold returns, exec. rewrite H. simpl. repeat split.
  - intros s i Hd Hp Hu Hv Hc Hw.
    apply Qltb_lt in Hv.
    destruct (loopBeforeSleepTimer_dies i s Hd Hp Hu Hv) as (Hbd & Hdst).
    rewrite deadline_small in Hdst by lia.
    assert (Hnow : to_long (millis (clock i)) = clock i)
      by (apply now_small; lia).
    assert (Hdue : sleepDue (to_long (millis (clock i))) i
                            (exec (loopBeforeSleepTimer i) s) = false).
    { unfold sleepDue. rewrite Hdst, Hnow.
      replace (watchdog_clock i + 0 <? clock i) with false
        by (symmetry; apply Z.ltb_ge; lia).
      rewrite andb_false_r. reflexivity. }
    assert (Hr : returns (loop i) s = true)
      by (rewrite loop_returns_iff, Hdue; reflexivity).
    split; [exact Hr | ].
    rewrite (exec_loop_returned i s Hr).
    destruct (loopAfterSleepTimer_plan i (exec (loopBeforeSleepTimer i) s))
      as (Hbd' & _ & Hdst').
    rewrite Hbd in Hbd', Hdst'. split; [exact Hbd' | ].
    rewrite Hdst', Hdst. lia.
Qed.

Lemma sleep_timer_fires_past_deadline_witness :
  (deepSleepTime booted_dead = 5600 /\
   returns (loop (quiet_tick 5601 false sagging)) booted_dead = false) /\
  (returns (loop (quiet_tick 3101 false sagging))
           (exec (setup boot_healthy) power_on) = true /\
   deepSleepTime (exec (loop (quiet_tick 3101 false sagging))
                       (exec (setup boot_healthy) power_on)) = 3101).
Proof.
  split.
  - split; [reflexivity | ].
    apply (proj1 sleep_timer_fires_past_deadline booted_dead
                 (quiet_tick 5601 false sagging));
      [vm_compute; discriminate | reflexivity | reflexivity].
  - assert (Hd : batteryDead (exec (setup boot_healthy) power_on) = false)
      by (vm_compute; reflexivity).
    assert (Hp : periodicDue
                   (to_long (millis (clock (quiet_tick 3101 false sagging))))
                   (exec (setup boot_healthy) power_on) = true)
      by (vm_compute; reflexivity).
    assert (Hv : (voltage (battery (quiet_tick 3101 false sagging))
                  < POWER_DEAD_THRESHOLD)%Q)
      by (vm_compute; reflexivity).
    assert (Hc : 0 <= clock (quiet_tick 3101 false sagging)
                 <= watchdog_clock (quiet_tick 3101 false sagging))
      by (vm_compute; split; discriminate).
    assert (Hw : watchdog_clock (quiet_tick 3101 false sagging) < 2 ^ 31)
      by (vm_compute; reflexivity).
    destruct (proj2 sleep_timer_fires_past_deadline
                    (exec (setup boot_healthy) power_on)
                    (quiet_tick 3101 false sagging) Hd Hp eq_refl Hv Hc Hw)
      as (Hr & _ & Ht).
    split; [exact Hr | exact Ht].
Defined.

(** C5, as stated, fails at [now = deadline] and for the deadline armed in
    the same iteration.  After a boot on a dead battery the deadline is
    5600 ms; on the tick at 5600 ms a deadline is armed, [now >= deadline]
    and the petals do not move, yet the tick completes and the processor is
    not suspended.  After a healthy boot the periodic operation of the tick
    at 3101 ms finds the battery dead and arms the deadline with timeout 0
    while the petals are idle and not moving; that tick does not fire. *)
Lemma sleep_timer_does_not_fire_at_deadline :
  (deepSleepTime booted_dead = 5600 /\
   petalsMoving (quiet_tick 5600 false sagging) = false /\
   to_long (millis (clock (quiet_tick 5600 false sagging))) >= 5600 /\
   returns (loop (quiet_tick 5600 false sagging)) booted_dead = true /\
   count isDeepSleepStart
         (emitted (loop (quiet_tick 5600 false sagging)) booted_dead) = 0%nat) /\
  (petalsMoving (quiet_tick 3101 false sagging) = false /\
   idle (quiet_tick 3101 false sagging) = true /\
   deepSleepTime (exec (setup boot_healthy) power_on) = 0 /\
   deepSleepTime (exec (loop (quiet_tick 3101 false sagging))
                       (exec (setup boot_healthy) power_on)) = 3101 /\
   returns (loop (quiet_tick 3101 false sagging))
           (exec (setup boot_healthy) power_on) = true /\
   count isDeepSleepStart
         (emitted (loop (quiet_tick 3101 false sagging))
                  (exec (setup boot_healthy) power_on)) = 0%nat).
Proof. repeat split; vm_compute; (reflexivity || discriminate). Qed.

(** ** The periodic timer and the deferred initialisation of the remote *)

Lemma count_app (p : Event -> bool) (l k : list Event) :
  count p (l ++ k) = (count p l + count p k)%nat.
Proof. unfold count. rewrite filter_app, length_app. reflexivity. Qed.

Lemma emitted_count (p : Event -> bool) {A : Type} (m : M A) (s : State)
      (evs : list Event) :
  trace (exec m s) = trace s ++ evs ->
  count p (trace (exec m s)) = (count p (trace s) + count p evs)%nat.
Proof. intros ->. apply count_app. Qed.

(** What one tick does to the periodic timer and to the watchdog. *)
Lemma loop_periodic (i : TickInput) (s : State) :
  let now := to_long (millis (clock i)) in
  let s' := exec (loop i) s in
  if periodicDue now s then
    periodicOperationsTime s' = to_long (now + PERIODIC_OPERATIONS_INTERVAL) /\
    count isWdtReset (emitted (loop i) s) = 1%nat /\
    exists rest, emitted (loop i) s = FloowerUpdate :: WdtReset :: Acty :: rest
  else
    periodicOperationsTime s' = periodicOperationsTime s /\
    count isWdtReset (emitted (loop i) s) = 0%nat.
Proof.
  destruct s as [bd bc dst pot irt low tr].
  unfold periodicDue, emitted, exec. simpl.
  destruct (pot =? 0) eqn:E0; destruct (pot <? to_long (millis (clock i))) eqn:E1;
    unfold_sketch; simpl; rewrite ?E0, ?E1; simpl;
    case_ifs; norm_trace; rewrite skipn_length_app;
    repeat split; eexists; reflexivity.
Qed.

Ltac find_pre l :=
  lazymatch l with
  | RemoteInit :: RemoteStartAdvertising :: _ => constr:(@nil Event)
  | ?x :: ?t => let p := find_pre t in constr:(x :: p)
  end.

(** What one tick does to the timer of the deferred initialisation. *)
Lemma loop_remote (i : TickInput) (s : State) :
  let now := to_long (millis (clock i)) in
  let s' := exec (loop i) s in
  if remoteDue now s then
    initRemoteTime s' = 0 /\
    count isRemoteInit (emitted (loop i) s) = 1%nat /\
    exists pre rest,
      emitted (loop i) s = pre ++ RemoteInit :: RemoteStartAdvertising :: rest
  else
    initRemoteTime s' = initRemoteTime s /\
    count isRemoteInit (emitted (loop i) s) = 0%nat.
Proof.
  destruct s as [bd bc dst pot irt low tr].
  unfold remoteDue, emitted, exec. simpl.
  unfold_sketch; simpl; case_ifs; try congruence;
    norm_trace; rewrite skipn_length_app; repeat split;
    match goal with
    | |- exists pre rest, ?l = _ =>
        let p := find_pre l in exists p; eexists; reflexivity
    end.
Qed.

(** Every computation of the sketch appends to the trace. *)
Lemma loop_appends (i : TickInput) (s : State) :
  trace (exec (loop i) s) = trace s ++ emitted (loop i) s.
Proof.
  destruct s as [bd bc dst pot irt low tr].
  unfold emitted, exec. unfold_sketch. simpl.
  case_ifs; norm_trace; rewrite skipn_length_app; reflexivity.
Qed.

(** What [setup] leaves in the timers. *)
Lemma setup_timers (b : BootInput) :
  let s0 := exec (setup b) power_on in
  periodicOperationsTime s0
  = (if bootDead b then 0
     else to_long (to_ulong (millis (periodic_clock b)
                             + PERIODIC_OPERATIONS_INTERVAL))) /\
  initRemoteTime s0
  = (if bootDead b then 0
     else if initRemoteOnStartup b
          then to_long (to_ulong (millis (remote_clock b) + REMOTE_INIT_TIMEOUT))
          else 0) /\
  deepSleepTime s0
  = (if bootDead b
     then to_long (to_ulong (millis (dead_clock b)
                             + BATTERY_DEAD_WARNING_DURATION))
     else 0) /\
  count isRemoteInit (trace s0) = 0%nat /\
  count isWdtReset (trace s0) = 0%nat.
Proof.
  unfold exec, bootDead, power_on. unfold_setup. simpl.
  destruct (wakeup_touchpad b), (boot_usb b); simpl;
    destruct (Qltb (voltage (first_reading b)) POWER_DEAD_THRESHOLD); simpl;
    destruct (Qltb (voltage (second_reading b)) POWER_DEAD_THRESHOLD); simpl;
    destruct (initRemoteOnStartup b); simpl; repeat split.
Qed.

Lemma run_appends_count (p : Event -> bool) (i : TickInput) (s : State) :
  count p (trace (exec (loop i) s))
  = (count p (trace s) + count p (emitted (loop i) s))%nat.
Proof. rewrite loop_appends at 1. apply count_app. Qed.

(** A periodic timer that is not armed stays so, and the watchdog is not
    reset. *)
Lemma run_without_periodic (ticks : list TickInput) (s : State) :
  periodicOperationsTime s = 0 ->
  periodicOperationsTime (exec (run ticks) s) = 0 /\
  count isWdtReset (trace (exec (run ticks) s)) = count isWdtReset (trace s).
Proof.
  revert s. induction ticks as [|i rest IH]; intros s H; [split; auto | ].
  pose proof (loop_periodic i s) as L. cbv zeta in L.
  unfold periodicDue in L. rewrite H in L. simpl in L.
  destruct L as (Lp & Lc).
  assert (Hc : count isWdtReset (trace (exec (loop i) s))
               = count isWdtReset (trace s))
    by (rewrite run_appends_count, Lc; lia).
  rewrite exec_run_cons. destruct (returns (loop i) s).
  - destruct (IH _ Lp) as (IH1 & IH2). split; [exact IH1 | congruence].
  - split; assumption.
Qed.

Lemma spaced_weaken (lo hi hi' prev : Z) (l : list Z) :
  hi <= hi' -> spaced lo hi prev l -> spaced lo hi' prev l.
Proof.
  intros Hh. revert prev. induction l as [|x rest IH]; intros prev H;
    [exact I | ].
  destruct H as (Hx & Hr). split; [lia | apply IH, Hr].
Qed.

(** While [loop] is called at least every [d] milliseconds, the first reset
    follows the deadline by at most [d] and each reset follows the previous
    one by more than the period and at most the period plus [d]. *)
Lemma resetTimes_spaced (d : Z) (ticks : list TickInput) :
  forall (s : State) (prev : Z),
    0 < periodicOperationsTime s ->
    prev <= periodicOperationsTime s ->
    paced d prev ticks ->
    spaced PERIODIC_OPERATIONS_INTERVAL (PERIODIC_OPERATIONS_INTERVAL + d)
           (periodicOperationsTime s - PERIODIC_OPERATIONS_INTERVAL)
           (resetTimes ticks s).
Proof.
  induction ticks as [|i rest IH]; intros s prev Hpos Hprev Hp; [exact I | ].
  destruct Hp as (Hc & H0 & H1 & Hrest).
  unfold PERIODIC_OPERATIONS_INTERVAL in *.
  assert (Hnow : to_long (millis (clock i)) = clock i)
    by (apply now_small; lia).
  pose proof (loop_periodic i s) as L. cbv zeta in L.
  unfold periodicDue, PERIODIC_OPERATIONS_INTERVAL in L. rewrite Hnow in L.
  replace (periodicOperationsTime s =? 0) with false in L
    by (symmetry; apply Z.eqb_neq; lia).
  simpl negb in L. simpl andb in L.
  cbn [resetTimes]. rewrite Hnow.
  destruct (periodicOperationsTime s <? clock i) eqn:E.
  - apply Z.ltb_lt in E. destruct L as (Lp & Lc & _).
    rewrite to_long_small in Lp by lia.
    rewrite Lc. cbn [Nat.ltb Nat.leb app spaced]. split; [lia | ].
    destruct (returns (loop i) s); [ | exact I].
    replace (clock i) with (periodicOperationsTime (exec (loop i) s) - 3000)
      at 1 by lia.
    apply (IH _ (clock i)); [lia | lia | exact Hrest].
  - apply Z.ltb_ge in E. destruct L as (Lp & Lc).
    rewrite Lc. cbn [Nat.ltb Nat.leb app].
    destruct (returns (loop i) s); [ | exact I].
    rewrite <- Lp. apply (IH _ (clock i)); [lia | lia | exact Hrest].
Qed.

(** C8, as amended. The watchdog timeout, 10 s, exceeds the period of the
    periodic operation, 3 s.  While the periodic timer is armed, a loop tick
    whose clock reading is strictly later than the deadline resets the
    watchdog once, as the first call after [floower.update()], and moves the
    deadline to that reading plus [PERIODIC_OPERATIONS_INTERVAL]; a tick
    whose reading is not later than the deadline does not reset the watchdog
    and keeps the deadline.  A [setup] that does not find the battery dead
    arms the timer [PERIODIC_OPERATIONS_INTERVAL] after its clock reading
    (the clock not wrapping); if [loop] is then called at least every [d]
    milliseconds, the first reset follows [setup], and each reset the
    previous one, by more than [PERIODIC_OPERATIONS_INTERVAL] and at most
    [PERIODIC_OPERATIONS_INTERVAL + d], which does not exceed the watchdog
    timeout when [d] is at most 7 s.  After a [setup] that finds the battery
    dead the timer is never armed and no loop tick resets the watchdog. *)
Theorem watchdog_reset_on_periodic_deadline (s : State) (i : TickInput) :
  let now := to_long (millis (clock i)) in
  periodicOperationsTime s <> 0 ->
  WDT_TIMEOUT * 1000 > PERIODIC_OPERATIONS_INTERVAL /\
  (periodicOperationsTime s < now ->
   periodicOperationsTime (exec (loop i) s)
   = to_long (now + PERIODIC_OPERATIONS_INTERVAL) /\
   count isWdtReset (emitted (loop i) s) = 1%nat /\
   exists rest, emitted (loop i) s = FloowerUpdate :: WdtReset :: Acty :: rest) /\
  (now <= periodicOperationsTime s ->
   periodicOperationsTime (exec (loop i) s) = periodicOperationsTime s /\
   count isWdtReset (emitted (loop i) s) = 0%nat) /\
  (forall b : BootInput,
      bootDead b = false ->
      0 <= periodic_clock b ->
      periodic_clock b + PERIODIC_OPERATIONS_INTERVAL < 2 ^ 31 ->
      periodicOperationsTime (exec (setup b) power_on)
      = periodic_clock b + PERIODIC_OPERATIONS_INTERVAL) /\
  (forall (b : BootInput) (ticks : list TickInput) (d : Z),
      bootDead b = false ->
      0 <= periodic_clock b ->
      periodic_clock b + PERIODIC_OPERATIONS_INTERVAL < 2 ^ 31 ->
      paced d (periodic_clock b) ticks ->
      spaced PERIODIC_OPERATIONS_INTERVAL (PERIODIC_OPERATIONS_INTERVAL + d)
             (periodic_clock b) (resetTimes ticks (exec (setup b) power_on)) /\
      (d <= WDT_TIMEOUT * 1000 - PERIODIC_OPERATIONS_INTERVAL ->
       spaced PERIODIC_OPERATIONS_INTERVAL (WDT_TIMEOUT * 1000)
              (periodic_clock b)
              (resetTimes ticks (exec (setup b) power_on)))) /\
  (forall (b : BootInput) (ticks : list TickInput),
      bootDead b = true ->
      count isWdtReset (trace (exec (run ticks) (exec (setup b) power_on)))
      = 0%nat).
Proof.
  intros now Hz. split; [reflexivity | ].
  assert (Harm : forall b : BootInput,
             bootDead b = false ->
             0 <= periodic_clock b ->
             periodic_clock b + PERIODIC_OPERATIONS_INTERVAL < 2 ^ 31 ->
             periodicOperationsTime (exec (setup b) power_on)
             = periodic_clock b + PERIODIC_OPERATIONS_INTERVAL).
  { intros b Hb H0 H1. destruct (setup_timers b) as (Hp & _).
    rewrite Hb in Hp. rewrite Hp. apply deadline_small; [lia | | lia].
    unfold PERIODIC_OPERATIONS_INTERVAL. lia. }
  pose proof (loop_periodic i s) as L. cbv zeta in L. fold now in L.
  unfold periodicDue in L. apply Z.eqb_neq in Hz. rewrite Hz in L.
  simpl in L.
  split; [ | split; [ | split; [ | split]]].
  - intros Hlt. apply Z.ltb_lt in Hlt. rewrite Hlt in L. exact L.
  - intros Hge. apply Z.ltb_ge in Hge. rewrite Hge in L. exact L.
  - exact Harm.
  - intros b ticks d Hb H0 H1 Hp.
    pose proof (Harm b Hb H0 H1) as Hpot.
    assert (Hs : spaced PERIODIC_OPERATIONS_INTERVAL
                        (PERIODIC_OPERATIONS_INTERVAL + d) (periodic_clock b)
                        (resetTimes ticks (exec (setup b) power_on))).
    { replace (periodic_clock b)
        with (periodicOperationsTime (exec (setup b) power_on)
              - PERIODIC_OPERATIONS_INTERVAL) at 1 by lia.
      apply (resetTimes_spaced d ticks _ (periodic_clock b));
        [ | | exact Hp]; unfold PERIODIC_OPERATIONS_INTERVAL in *; lia. }
    split; [exact Hs | ].
    intros Hd.
    apply (spaced_weaken _ (PERIODIC_OPERATIONS_INTERVAL + d)); [ | exact Hs].
    unfold PERIODIC_OPERATIONS_INTERVAL, WDT_TIMEOUT in *. lia.
  - intros b ticks Hb. destruct (setup_timers b) as (Hp & _ & _ & _ & Hw).
    rewrite Hb in Hp.
    destruct (run_without_periodic ticks _ Hp) as (_ & Hc). congruence.
Qed.

Lemma watchdog_reset_on_periodic_deadline_witness :
  periodicOperationsTime (exec (setup boot_healthy) power_on) = 3100 /\
  paced 500 (periodic_clock boot_healthy) steady_ticks /\
  resetTimes steady_ticks (exec (setup boot_healthy) power_on) = [3600; 7100] /\
  spaced PERIODIC_OPERATIONS_INTERVAL (WDT_TIMEOUT * 1000)
         (periodic_clock boot_healthy)
         (resetTimes steady_ticks (exec (setup boot_healthy) power_on)) /\
  count isWdtReset
        (emitted (loop (quiet_tick 3101 false healthy))
                 (exec (setup boot_healthy) power_on)) = 1%nat /\
  count isWdtReset
        (emitted (loop (quiet_tick 3100 false healthy))
                 (exec (setup boot_healthy) power_on)) = 0%nat.
Proof.
  split; [reflexivity | ].
  assert (Hpaced : paced 500 (periodic_clock boot_healthy) steady_ticks)
    by (vm_compute; repeat split; discriminate).
  split; [exact Hpaced | ].
  split; [vm_compute; reflexivity | ].
  assert (Hz : periodicOperationsTime (exec (setup boot_healthy) power_on) <> 0)
    by (vm_compute; discriminate).
  split.
  { destruct (watchdog_reset_on_periodic_deadline
                (exec (setup boot_healthy) power_on)
                (quiet_tick 3101 false healthy) Hz)
      as (_ & _ & _ & _ & Hgap & _).
    apply (Hgap boot_healthy steady_ticks 500);
      [reflexivity | vm_compute; discriminate | vm_compute; reflexivity
       | exact Hpaced | vm_compute; discriminate]. }
  split.
  - destruct (watchdog_reset_on_periodic_deadline
                (exec (setup boot_healthy) power_on)
                (quiet_tick 3101 false healthy) Hz) as (_ & Hdue & _).
    apply Hdue. reflexivity.
  - destruct (watchdog_reset_on_periodic_deadline
                (exec (setup boot_healthy) power_on)
                (quiet_tick 3100 false healthy) Hz) as (_ & _ & Hnot & _).
    apply Hnot. vm_compute. discriminate.
Defined.

(** C8, as stated, fails after a boot on a dead battery: [setup] completes
    at 600 ms, [loop] runs once a second until the processor is suspended at
    5601 ms, and the watchdog is not reset once in these five seconds. *)
Lemma watchdog_not_reset_after_dead_boot :
  batteryDead booted_dead = true /\
  periodicOperationsTime booted_dead = 0 /\
  returns (run dead_boot_ticks) booted_dead = false /\
  count isWdtReset (emitted (run dead_boot_ticks) booted_dead) = 0%nat /\
  count isDeepSleepStart (emitted (run dead_boot_ticks) booted_dead) = 1%nat.
Proof. repeat split; vm_compute; reflexivity. Qed.

(** A timer of the deferred initialisation that is not armed stays so, and
    the remote is never initialised. *)
Lemma run_without_remote (ticks : list TickInput) (s : State) :
  initRemoteTime s = 0 ->
  initRemoteTime (exec (run ticks) s) = 0 /\
  count isRemoteInit (trace (exec (run ticks) s))
  = count isRemoteInit (trace s).
Proof.
  revert s. induction ticks as [|i rest IH]; intros s H; [split; auto | ].
  pose proof (loop_remote i s) as L. cbv zeta in L.
  unfold remoteDue in L. rewrite H in L. simpl in L.
  destruct L as (Lt & Lc).
  assert (Hc : count isRemoteInit (trace (exec (loop i) s))
               = count isRemoteInit (trace s))
    by (rewrite run_appends_count, Lc; lia).
  rewrite exec_run_cons. destruct (returns (loop i) s).
  - destruct (IH _ Lt) as (IH1 & IH2). split; [exact IH1 | congruence].
  - split; assumption.
Qed.

(** The deferred initialisation is pending, with its deadline, or done:
    every run keeps it so. *)
Lemma loop_remote_once (deadline : Z) (i : TickInput) (s : State) :
  deadline <> 0 ->
  (initRemoteTime s = deadline /\ count isRemoteInit (trace s) = 0%nat) \/
  (initRemoteTime s = 0 /\ count isRemoteInit (trace s) = 1%nat) ->
  (initRemoteTime (exec (loop i) s) = deadline /\
   count isRemoteInit (trace (exec (loop i) s)) = 0%nat) \/
  (initRemoteTime (exec (loop i) s) = 0 /\
   count isRemoteInit (trace (exec (loop i) s)) = 1%nat).
Proof.
  intros Hz H. pose proof (loop_remote i s) as L. cbv zeta in L.
  rewrite run_appends_count.
  destruct H as [(Ht & Hc) | (Ht & Hc)].
  - destruct (remoteDue (to_long (millis (clock i))) s).
    + destruct L as (L1 & L2 & _). right. split; [exact L1 | lia].
    + destruct L as (L1 & L2). left. split; [congruence | lia].
  - unfold remoteDue in L. rewrite Ht in L. simpl in L.
    destruct L as (L1 & L2). right. split; [congruence | lia].
Qed.

Lemma run_remote_once (deadline : Z) (ticks : list TickInput) (s : State) :
  deadline <> 0 ->
  (initRemoteTime s = deadline /\ count isRemoteInit (trace s) = 0%nat) \/
  (initRemoteTime s = 0 /\ count isRemoteInit (trace s) = 1%nat) ->
  (initRemoteTime (exec (run ticks) s) = deadline /\
   count isRemoteInit (trace (exec (run ticks) s)) = 0%nat) \/
  (initRemoteTime (exec (run ticks) s) = 0 /\
   count isRemoteInit (trace (exec (run ticks) s)) = 1%nat).
Proof.
  intros Hz. revert s. induction ticks as [|i rest IH]; intros s H; [exact H | ].
  rewrite exec_run_cons.
  pose proof (loop_remote_once deadline i s Hz H) as H'.
  destruct (returns (loop i) s); [apply IH, H' | exact H'].
Qed.

(** C9, as amended. When the configuration requests the deferred
    initialisation and [setup] does not find the battery dead, the timer is
    armed [REMOTE_INIT_TIMEOUT] after the clock reading of [setup] (the
    clock not wrapping).  After any run of [loop] the action has fired at
    most once; the timer is cleared if it has fired and holds the deadline
    if it has not.  The next tick fires the action exactly when it has not
    fired yet and the clock reading of the tick is strictly later than the
    deadline; firing calls [remote.init()], then
    [remote.startAdvertising()], and clears the timer.  After a [setup]
    that finds the battery dead, whatever the configuration requests, the
    timer is not armed and no run of [loop] fires the action. *)
Theorem deferred_remote_init_fires_once
  (b : BootInput) (ticks : list TickInput) (i : TickInput) :
  let deadline := remote_clock b + REMOTE_INIT_TIMEOUT in
  let s0 := exec (setup b) power_on in
  let s := exec (run ticks) s0 in
  let now := to_long (millis (clock i)) in
  initRemoteOnStartup b = true ->
  bootDead b = false ->
  0 <= remote_clock b ->
  remote_clock b + REMOTE_INIT_TIMEOUT < 2 ^ 31 ->
  initRemoteTime s0 = deadline /\
  (count isRemoteInit (trace s) <= 1)%nat /\
  (count isRemoteInit (trace s) = 1%nat -> initRemoteTime s = 0) /\
  (count isRemoteInit (trace s) = 0%nat -> initRemoteTime s = deadline) /\
  (count isRemoteInit (emitted (loop i) s) = 1%nat <->
   count isRemoteInit (trace s) = 0%nat /\ deadline < now) /\
  (count isRemoteInit (emitted (loop i) s) = 0%nat <->
   ~ (count isRemoteInit (trace s) = 0%nat /\ deadline < now)) /\
  (count isRemoteInit (emitted (loop i) s) = 1%nat ->
   initRemoteTime (exec (loop i) s) = 0 /\
   exists pre rest,
     emitted (loop i) s = pre ++ RemoteInit :: RemoteStartAdvertising :: rest) /\
  (forall (b' : BootInput) (ticks' : list TickInput),
      bootDead b' = true ->
      initRemoteTime (exec (setup b') power_on) = 0 /\
      initRemoteTime (exec (run ticks') (exec (setup b') power_on)) = 0 /\
      count isRemoteInit
            (trace (exec (run ticks') (exec (setup b') power_on))) = 0%nat).
Proof.
  intros deadline s0 s now Hcfg Hb H0 H1.
  assert (Hdeadboot :
            forall (b' : BootInput) (ticks' : list TickInput),
              bootDead b' = true ->
              initRemoteTime (exec (setup b') power_on) = 0 /\
              initRemoteTime (exec (run ticks') (exec (setup b') power_on)) = 0 /\
              count isRemoteInit
                    (trace (exec (run ticks') (exec (setup b') power_on)))
              = 0%nat).
  { intros b' ticks' Hb'.
    destruct (setup_timers b') as (_ & Hr' & _ & Hc' & _).
    rewrite Hb' in Hr'.
    destruct (run_without_remote ticks' _ Hr') as (Ht' & Hn').
    split; [exact Hr' | ]. split; [exact Ht' | congruence]. }
  assert (Hz : deadline <> 0)
    by (unfold deadline, REMOTE_INIT_TIMEOUT in *; lia).
  destruct (setup_timers b) as (_ & Hr & _ & Hc & _).
  rewrite Hb, Hcfg in Hr. fold s0 in Hr, Hc.
  rewrite deadline_small in Hr
    by (unfold REMOTE_INIT_TIMEOUT in *; lia).
  fold deadline in Hr.
  split; [exact Hr | ].
  pose proof (run_remote_once deadline ticks s0 Hz (or_introl (conj Hr Hc)))
    as Hinv. fold s in Hinv.
  pose proof (loop_remote i s) as L. cbv zeta in L. fold now in L.
  unfold remoteDue in L.
  destruct Hinv as [(Ht & Hn) | (Ht & Hn)]; rewrite Hn, Ht.
  - split; [lia | ]. split; [discriminate | ]. split; [reflexivity | ].
    rewrite Ht in L. apply Z.eqb_neq in Hz. rewrite Hz in L. simpl in L.
    destruct (deadline <? now) eqn:E.
    + apply Z.ltb_lt in E. destruct L as (L1 & L2 & L3). rewrite L2.
      split; [tauto | ].
      split; [ | split; [intros _; split; assumption | exact Hdeadboot]].
      split; [discriminate | intros H; elim H; split; [reflexivity | exact E]].
    + apply Z.ltb_ge in E. destruct L as (L1 & L2). rewrite L2.
      split; [split; [discriminate | intros (_ & H); lia] | ].
      split; [ | split; [discriminate | exact Hdeadboot]].
      split; [intros _ (_ & H); lia | reflexivity].
  - split; [lia | ]. split; [reflexivity | ]. split; [discriminate | ].
    rewrite Ht in L. simpl in L. destruct L as (L1 & L2). rewrite L2.
    split; [split; [discriminate | intros (H & _); discriminate] | ].
    split; [ | split; [discriminate | exact Hdeadboot]].
    split; [intros _ (H & _); discriminate | reflexivity].
Qed.

Lemma deferred_remote_init_fires_once_witness :
  initRemoteTime (exec (setup boot_healthy) power_on) = 2100 /\
  (count isRemoteInit
         (trace (exec (run [quiet_tick 200 false healthy;
                            quiet_tick 2101 false healthy;
                            quiet_tick 3101 false healthy])
                      (exec (setup boot_healthy) power_on))) <= 1)%nat /\
  count isRemoteInit
        (trace (exec (run dead_boot_ticks) (exec (setup boot_dead) power_on)))
  = 0%nat.
Proof.
  assert (H0 : 0 <= remote_clock boot_healthy) by (vm_compute; discriminate).
  assert (H1 : remote_clock boot_healthy + REMOTE_INIT_TIMEOUT < 2 ^ 31)
    by (vm_compute; reflexivity).
  destruct (deferred_remote_init_fires_once boot_healthy
              [quiet_tick 200 false healthy; quiet_tick 2101 false healthy;
               quiet_tick 3101 false healthy]
              (quiet_tick 6102 false healthy) eq_refl eq_refl H0 H1)
    as (Harm & Hmost & _ & _ & _ & _ & _ & Hdead).
  split; [exact Harm | ]. split; [exact Hmost | ].
  apply (Hdead boot_dead dead_boot_ticks). reflexivity.
Defined.

(** C9, as stated, fails after a boot on a dead battery: the configuration
    requests the deferred initialisation, [setup] does not arm the timer,
    and the processor is suspended at 5601 ms without the action having
    fired. *)
Lemma deferred_init_never_fires_after_dead_boot :
  initRemoteOnStartup boot_dead = true /\
  initRemoteTime booted_dead = 0 /\
  returns (run dead_boot_ticks) booted_dead = false /\
  count isRemoteInit (trace (exec (run dead_boot_ticks) booted_dead)) = 0%nat.
Proof. repeat split; vm_compute; reflexivity. Qed.

(** * Further properties of the sketch *)

(** ** [setup] *)

Ltac setup_cases b :=
  unfold exec, returns, bootDead, power_on; unfold_setup; simpl;
  destruct (wakeup_touchpad b), (boot_usb b); simpl;
  destruct (Qltb (voltage (first_reading b)) POWER_DEAD_THRESHOLD); simpl;
  destruct (Qltb (voltage (second_reading b)) POWER_DEAD_THRESHOLD); simpl;
  destruct (initRemoteOnStartup b); simpl.

(** X1. [setup] declares the battery dead exactly when the device is not
    externally powered and both the first reading and the reading taken
    after the 500 ms delay are below [POWER_DEAD_THRESHOLD]; a single low
    reading does not.  On external power the battery is read once (the
    calibration read), otherwise twice, and three times when the first
    reading is low. *)
Theorem setup_dead_needs_two_low_readings (b : BootInput) :
  (batteryDead (exec (setup b) power_on) = true <->
   boot_usb b = false /\
   (voltage (first_reading b) < POWER_DEAD_THRESHOLD)%Q /\
   (voltage (second_reading b) < POWER_DEAD_THRESHOLD)%Q) /\
  batteryCharging (exec (setup b) power_on) = boot_usb b /\
  count isReadBatteryState (trace (exec (setup b) power_on))
  = (if boot_usb b then 1
     else if Qltb (voltage (first_reading b)) POWER_DEAD_THRESHOLD then 3
          else 2)%nat /\
  count isDelay (trace (exec (setup b) power_on))
  = (if negb (boot_usb b)
        && Qltb (voltage (first_reading b)) POWER_DEAD_THRESHOLD
     then 2 else 1)%nat.
Proof.
  split.
  - rewrite setup_batteryDead. unfold bootDead.
    rewrite <- !Qltb_lt.
    destruct (boot_usb b),
      (Qltb (voltage (first_reading b)) POWER_DEAD_THRESHOLD),
      (Qltb (voltage (second_reading b)) POWER_DEAD_THRESHOLD);
      simpl; intuition congruence.
  - setup_cases b; repeat split.
Qed.

Ltac decide_in :=
  simpl;
  first [ solve [split; [reflexivity | intros _; auto 20]]
        | solve [split; [intros H; exfalso; intuition discriminate
                        | intros H; exfalso; intuition discriminate]]
        | solve [split; [intros _; auto | intros _; auto 20]]
        | solve [intuition (try discriminate; auto 20)] ].

(** X2. [setup] never suspends, and its two branches exclude each other: the
    servo and the automaton are initialised exactly when the battery is not
    found dead, and the red flash and the low-power mode are requested
    exactly when it is. *)
Theorem setup_dead_boot_skips_servo (b : BootInput) :
  let tr := trace (exec (setup b) power_on) in
  returns (setup b) power_on = true /\
  (In InitServo tr <-> bootDead b = false) /\
  (In AutomatonInit tr <-> bootDead b = false) /\
  (In (SetColor colorRed FLASH 1000) tr <-> bootDead b = true) /\
  lowPowerMode (exec (setup b) power_on) = bootDead b.
Proof.
  cbv zeta. setup_cases b;
    (split; [reflexivity | ]);
    (split; [decide_in | ]);
    (split; [decide_in | ]);
    (split; [decide_in | reflexivity]).
Qed.

(** X3. A wake-up by the touchpad is registered as a touch and keeps the
    petals where they are: [setup] resets the petals to the closed position
    exactly when the battery is not found dead and the boot is not a wake-up
    by the touchpad. *)
Theorem setup_touch_wake_keeps_petals (b : BootInput) :
  let tr := trace (exec (setup b) power_on) in
  (In RegisterOutsideTouch tr <-> wakeup_touchpad b = true) /\
  (In (SetPetalsOpenLevel 0 100) tr <->
   bootDead b = false /\ wakeup_touchpad b = false).
Proof.
  cbv zeta. setup_cases b; (split; decide_in).
Qed.

(** X4. After [setup], while the clock has not wrapped, exactly one of the
    sleep deadline and the periodic timer is armed: on a dead battery the
    sleep deadline is [BATTERY_DEAD_WARNING_DURATION] after the clock reading
    and neither the periodic timer nor the timer of the remote is armed;
    otherwise no sleep deadline is armed, the periodic timer is, and the
    timer of the remote is armed only if the configuration asks for it. *)
Theorem setup_arms_one_timer (b : BootInput) :
  let s0 := exec (setup b) power_on in
  0 <= dead_clock b -> dead_clock b + BATTERY_DEAD_WARNING_DURATION < 2 ^ 31 ->
  0 <= periodic_clock b ->
  periodic_clock b + PERIODIC_OPERATIONS_INTERVAL < 2 ^ 31 ->
  if bootDead b then
    deepSleepTime s0 = dead_clock b + BATTERY_DEAD_WARNING_DURATION /\
    deepSleepTime s0 <> 0 /\
    periodicOperationsTime s0 = 0 /\ initRemoteTime s0 = 0
  else
    deepSleepTime s0 = 0 /\
    periodicOperationsTime s0 = periodic_clock b + PERIODIC_OPERATIONS_INTERVAL /\
    periodicOperationsTime s0 <> 0 /\
    (initRemoteOnStartup b = false -> initRemoteTime s0 = 0).
Proof.
  intros s0 H0 H1 H2 H3.
  destruct (setup_timers b) as (Hp & Hr & Hd & _). fold s0 in Hp, Hr, Hd.
  unfold BATTERY_DEAD_WARNING_DURATION, PERIODIC_OPERATIONS_INTERVAL in *.
  destruct (bootDead b).
  - rewrite deadline_small in Hd by lia. repeat split; try assumption. lia.
  - rewrite deadline_small in Hp by lia. repeat split; try assumption.
    + lia.
    + intros Hc. rewrite Hc in Hr. exact Hr.
Qed.

Lemma setup_arms_one_timer_witness :
  deepSleepTime booted_dead = 5600 /\
  periodicOperationsTime booted_dead = 0 /\
  deepSleepTime (exec (setup boot_healthy) power_on) = 0 /\
  periodicOperationsTime (exec (setup boot_healthy) power_on) = 3100.
Proof.
  assert (D : 0 <= dead_clock boot_dead /\
              dead_clock boot_dead + BATTERY_DEAD_WARNING_DURATION < 2 ^ 31 /\
              0 <= periodic_clock boot_dead /\
              periodic_clock boot_dead + PERIODIC_OPERATIONS_INTERVAL < 2 ^ 31)
    by (vm_compute; repeat split; (reflexivity || discriminate)).
  assert (H : 0 <= dead_clock boot_healthy /\
              dead_clock boot_healthy + BATTERY_DEAD_WARNING_DURATION < 2 ^ 31 /\
              0 <= periodic_clock boot_healthy /\
              periodic_clock boot_healthy + PERIODIC_OPERATIONS_INTERVAL
              < 2 ^ 31)
    by (vm_compute; repeat split; (reflexivity || discriminate)).
  destruct D as (D0 & D1 & D2 & D3). destruct H as (H0 & H1 & H2 & H3).
  pose proof (setup_arms_one_timer boot_dead D0 D1 D2 D3) as Pd.
  pose proof (setup_arms_one_timer boot_healthy H0 H1 H2 H3) as Ph.
  change (bootDead boot_dead) with true in Pd.
  change (bootDead boot_healthy) with false in Ph.
  cbv zeta in Pd, Ph.
  destruct Pd as (Pd1 & _ & Pd2 & _). destruct Ph as (Ph1 & Ph2 & _).
  repeat split; assumption.
Defined.

(** ** [planDeepSleep] *)

Lemma to_long_zero_iff (z : Z) : to_long z = 0 <-> z mod 2 ^ 32 = 0.
Proof.
  unfold to_long.
  pose proof (Z.mod_pos_bound z (2 ^ 32) ltac:(lia)) as Hb.
  pose proof (Z.mod_pos_bound (z + 2 ^ 31) (2 ^ 32) ltac:(lia)) as Hb'.
  rewrite (Z.add_mod z (2 ^ 31) (2 ^ 32)) in * by lia.
  rewrite (Z.mod_small (2 ^ 31) (2 ^ 32)) in * by lia.
  destruct (Z_lt_le_dec (z mod 2 ^ 32) (2 ^ 31)) as [Hlt | Hge].
  - rewrite Z.mod_small by lia. lia.
  - replace (z mod 2 ^ 32 + 2 ^ 31)
      with ((z mod 2 ^ 32 - 2 ^ 31) + 1 * 2 ^ 32) by lia.
    rewrite Z.mod_add by lia. rewrite Z.mod_small by lia. lia.
Qed.

(** X5. [planDeepSleep] writes only [deepSleepTime] and calls nothing.  The
    deadline it stores is a 32-bit [long]; it equals the clock reading plus
    the timeout while that sum is below 2^31, and it is 0, the value that
    means that no deadline is armed, exactly when the clock reading plus the
    timeout is a multiple of 2^32. *)
Theorem planDeepSleep_deadline (clk timeoutMs : Z) (s : State) :
  let s' := exec (planDeepSleep clk timeoutMs) s in
  returns (planDeepSleep clk timeoutMs) s = true /\
  - 2 ^ 31 <= deepSleepTime s' < 2 ^ 31 /\
  (deepSleepTime s' = 0 <-> (clk + timeoutMs) mod 2 ^ 32 = 0) /\
  (0 <= clk -> 0 <= timeoutMs -> clk + timeoutMs < 2 ^ 31 ->
   deepSleepTime s' = clk + timeoutMs) /\
  batteryDead s' = batteryDead s /\ batteryCharging s' = batteryCharging s /\
  periodicOperationsTime s' = periodicOperationsTime s /\
  initRemoteTime s' = initRemoteTime s /\
  lowPowerMode s' = lowPowerMode s /\ trace s' = trace s.
Proof.
  unfold exec, returns, planDeepSleep, set_deepSleepTime. simpl.
  split; [reflexivity | ]. split; [apply to_long_range | ].
  split; [ | split; [apply deadline_small | repeat split]].
  rewrite to_long_to_ulong, to_long_zero_iff. unfold millis, to_ulong.
  rewrite Zplus_mod_idemp_l. reflexivity.
Qed.

(** ** [powerWatchDog] *)

(** X6. Whatever the thresholds, a periodic sample never suspends, never
    writes the periodic timer or the timer of the remote, never clears
    [batteryDead], and writes the sleep deadline only when it commits to dead
    mode. *)
Theorem powerWatchDog_touches_only_power_state
  (enter leave dead : Q) (i : TickInput) (s : State) :
  let s' := exec (powerWatchDogWith enter leave dead i) s in
  returns (powerWatchDogWith enter leave dead i) s = true /\
  periodicOperationsTime s' = periodicOperationsTime s /\
  initRemoteTime s' = initRemoteTime s /\
  (batteryDead s = true -> batteryDead s' = true) /\
  (batteryDead s' = false -> deepSleepTime s' = deepSleepTime s) /\
  (batteryDead s = false -> batteryCharging s' = usbPowered i).
Proof.
  cbv zeta.
  split; [unfold returns; rewrite powerWatchDogWith_returns; reflexivity | ].
  destruct (powerWatchDogWith_frame enter leave dead i s) as (Hp & Hr).
  split; [exact Hp | split; [exact Hr | ]].
  destruct (batteryDead s) eqn:Hd.
  - unfold exec. rewrite powerWatchDogWith_dead by exact Hd. simpl.
    rewrite Hd. repeat split; congruence.
  - pose proof (powerWatchDogWith_alive enter leave dead i s Hd) as H.
    cbv zeta in H. destruct H as (_ & Hc & H).
    split; [discriminate | ]. split; [ | intros _; exact Hc].
    repeat match type of H with
           | (if ?c then _ else _) => destruct c
           end;
      destruct H as (Hb & _ & Ht & _); congruence.
Qed.

(** X7. When the enter threshold is not above the dead threshold, as in the
    shipped configuration (0 V and 3.4 V), the branch that enters low-power
    mode is dead code for every voltage: a voltage below the enter threshold
    is below the dead threshold, which is tested first.  A periodic sample
    then never calls [setLowPowerMode(true)] and never turns the flag on. *)
Theorem low_power_enter_branch_is_dead_code
  (enter leave dead : Q) (i : TickInput) (s : State) :
  (enter <= dead)%Q ->
  ~ In (SetLowPowerMode true)
       (emitted (powerWatchDogWith enter leave dead i) s) /\
  (lowPowerMode (exec (powerWatchDogWith enter leave dead i) s) = true ->
   lowPowerMode s = true).
Proof.
  intros Hle.
  destruct (batteryDead s) eqn:Hd.
  - unfold emitted, exec. rewrite powerWatchDogWith_dead by exact Hd. simpl.
    rewrite skipn_all. split; [intros [] | auto].
  - pose proof (powerWatchDogWith_alive enter leave dead i s Hd) as H.
    cbv zeta in H. destruct H as (_ & _ & H).
    destruct (usbPowered i).
    { destruct H as (_ & Hl & _ & Htr). apply emitted_app in Htr.
      rewrite Htr, Hl. split; [simpl; intuition discriminate | discriminate]. }
    destruct (Qltb (voltage (battery i)) dead) eqn:Edead.
    { destruct H as (_ & Hl & _ & Htr). apply emitted_app in Htr.
      rewrite Htr, Hl. split; [simpl; intuition discriminate | auto]. }
    assert (Eenter : Qltb (voltage (battery i)) enter = false).
    { apply Qltb_ge. apply Qltb_ge in Edead.
      apply (Qle_trans _ dead); assumption. }
    rewrite Eenter, andb_false_r in H.
    destruct (lowPowerMode s && Qgeb (voltage (battery i)) leave);
      destruct H as (_ & Hl & _ & Htr); apply emitted_app in Htr;
      rewrite Htr, Hl; (split; [simpl; intuition discriminate | ]);
      (discriminate || auto).
Qed.

Lemma low_power_enter_branch_is_dead_code_witness :
  (POWER_LOW_ENTER_THRESHOLD <= POWER_DEAD_THRESHOLD)%Q /\
  ~ In (SetLowPowerMode true)
       (emitted (powerWatchDog (busy_tick 3101 false (reading (-1 # 10))))
                (exec (setup boot_healthy) power_on)).
Proof.
  assert (H : (POWER_LOW_ENTER_THRESHOLD <= POWER_DEAD_THRESHOLD)%Q)
    by (vm_compute; discriminate).
  split; [exact H | ].
  apply (low_power_enter_branch_is_dead_code POWER_LOW_ENTER_THRESHOLD
           POWER_LOW_LEAVE_THRESHOLD POWER_DEAD_THRESHOLD
           (busy_tick 3101 false (reading (-1 # 10)))
           (exec (setup boot_healthy) power_on) H).
Defined.

(** X8. With the shipped thresholds low-power mode does not survive a
    periodic sample: whatever the voltage and the prior flag, a sample taken
    while the battery is not dead leaves the mode [Normal] or [Dead], never
    [LowPower]. *)
Theorem sample_never_leaves_low_power (s : State) (i : TickInput) :
  batteryDead s = false ->
  powerMode (exec (powerWatchDog i) s) <> LowPower /\
  (powerMode (exec (powerWatchDog i) s) = Dead <->
   usbPowered i = false /\ (voltage (battery i) < POWER_DEAD_THRESHOLD)%Q).
Proof.
  intros Hd.
  pose proof (powerWatchDogWith_alive POWER_LOW_ENTER_THRESHOLD
                POWER_LOW_LEAVE_THRESHOLD POWER_DEAD_THRESHOLD i s Hd) as H.
  cbv zeta in H. fold (powerWatchDog i) in H. destruct H as (_ & _ & H).
  rewrite <- Qltb_lt. unfold powerMode.
  destruct (usbPowered i).
  { destruct H as (Hb & Hl & _). rewrite Hb, Hl.
    split; [discriminate | split; [discriminate | intros (E & _); discriminate]]. }
  destruct (Qltb (voltage (battery i)) POWER_DEAD_THRESHOLD) eqn:Edead.
  { destruct H as (Hb & _). rewrite Hb.
    split; [discriminate | split; auto]. }
  assert (Eenter : Qltb (voltage (battery i)) POWER_LOW_ENTER_THRESHOLD = false).
  { apply Qltb_ge. apply Qltb_ge in Edead.
    apply (Qle_trans _ POWER_DEAD_THRESHOLD); [ | exact Edead].
    vm_compute. discriminate. }
  assert (Eleave : Qgeb (voltage (battery i)) POWER_LOW_LEAVE_THRESHOLD = true).
  { apply Qgeb_le. apply Qltb_ge in Edead.
    apply (Qle_trans _ POWER_DEAD_THRESHOLD); [ | exact Edead].
    vm_compute. discriminate. }
  rewrite Eenter, Eleave, andb_false_r, andb_true_r in H.
  destruct (lowPowerMode s) eqn:El; destruct H as (Hb & Hl & _);
    rewrite Hb, Hl, ?El;
    (split; [discriminate | split; [discriminate | intros (_ & E); discriminate]]).
Qed.

Lemma sample_never_leaves_low_power_witness :
  powerMode low_power_state = LowPower /\
  powerMode (exec (powerWatchDog (busy_tick 3101 false healthy))
                  low_power_state) <> LowPower.
Proof.
  split; [reflexivity | ].
  apply (sample_never_leaves_low_power low_power_state
           (busy_tick 3101 false healthy)). reflexivity.
Defined.

(** ** [loop] *)

Ltac case_bools :=
  repeat match goal with
         | |- context [if ?c then _ else _] =>
             lazymatch type of c with
             | bool => destruct c eqn:?; simpl
             end
         end.

(** The timers that precede the sleep timer change the power state only
    through the periodic sample. *)
Lemma loopBeforeSleepTimer_power (i : TickInput) (s : State) :
  let now := to_long (millis (clock i)) in
  let s1 := exec (loopBeforeSleepTimer i) s in
  (batteryDead s = true ->
   batteryDead s1 = true /\ deepSleepTime s1 = deepSleepTime s) /\
  (batteryDead s1 = false ->
   batteryDead s = false /\ deepSleepTime s1 = deepSleepTime s) /\
  lowPowerMode s1
  = (if periodicDue now s then
       lowPowerMode (exec (powerWatchDog i) s)
     else lowPowerMode s) /\
  batteryCharging s1
  = (if periodicDue now s && negb (batteryDead s) then usbPowered i
     else batteryCharging s).
Proof.
  destruct s as [bd bc dst pot irt low tr].
  unfold periodicDue, exec. unfold_sketch. simpl.
  case_bools; repeat split; intros; simpl in *; congruence.
Qed.

(** The calls of one tick: deep sleep is started at most once, as the last
    call of a tick that suspends. *)
Lemma loop_sleep_trace (i : TickInput) (s : State) :
  exists evs,
    trace (exec (loop i) s) = trace s ++ evs /\
    count isDeepSleepStart evs = (if returns (loop i) s then 0 else 1)%nat /\
    (returns (loop i) s = false ->
     exists pre, evs = pre ++ [EnableTouchpadWakeup; BtStop; DeepSleepStart]).
Proof.
  set (now := to_long (millis (clock i))).
  set (s1 := exec (loopBeforeSleepTimer i) s).
  assert (Hr : returns (loop i) s = negb (sleepDue now i s1))
    by apply loop_returns_iff.
  pose proof (loop_stages i s) as L. cbv zeta in L. fold now s1 in L.
  assert (Hs1 : exists evs,
             trace s1 = trace s ++ evs /\
             count isDeepSleepStart evs = 0%nat).
  { subst s1. clear. destruct s as [bd bc dst pot irt low tr].
    unfold exec. unfold_sketch. simpl.
    case_bools; norm_trace; eexists; split; reflexivity. }
  destruct Hs1 as (evs & Hevs & Hcount).
  rewrite Hr. unfold exec. rewrite L.
  destruct (sleepDue now i s1); simpl.
  - rewrite Hevs. norm_trace.
    exists (evs ++ [EnableTouchpadWakeup; BtStop; DeepSleepStart]).
    split; [reflexivity | ]. split.
    + rewrite count_app, Hcount. reflexivity.
    + intros _. exists evs. reflexivity.
  - assert (Hafter : exists evs',
               trace (exec (loopAfterSleepTimer i) s1) = trace s1 ++ evs' /\
               count isDeepSleepStart evs' = 0%nat).
    { clear. destruct s1 as [bd bc dst pot irt low tr].
      unfold exec, loopAfterSleepTimer. unfold_sketch. simpl.
      case_bools; norm_trace;
        try (eexists; split; reflexivity);
        exists []; rewrite app_nil_r; split; reflexivity. }
    destruct Hafter as (evs' & Hevs' & Hcount').
    rewrite Hevs', Hevs. norm_trace. exists (evs ++ evs').
    split; [reflexivity | ]. split; [ | discriminate].
    rewrite count_app, Hcount, Hcount'. reflexivity.
Qed.

(** X9. [loop] suspends the processor only from its sleep timer: exactly
    when, after the periodic and the remote timers have run, a deadline is
    armed, the deadline is strictly earlier than [now] and the petals are
    not moving.  It never suspends while the petals move.  A tick that
    suspends starts deep sleep once, as its last call, after enabling the
    touchpad wake-up and stopping the radio; a tick that returns does not
    start deep sleep. *)
Theorem loop_suspends_only_when_due (i : TickInput) (s : State) :
  let now := to_long (millis (clock i)) in
  let s1 := exec (loopBeforeSleepTimer i) s in
  (returns (loop i) s = false <->
   deepSleepTime s1 <> 0 /\ deepSleepTime s1 < now /\ petalsMoving i = false) /\
  (petalsMoving i = true -> returns (loop i) s = true) /\
  count isDeepSleepStart (emitted (loop i) s)
  = (if returns (loop i) s then 0 else 1)%nat /\
  (returns (loop i) s = false ->
   exists pre, emitted (loop i) s
               = pre ++ [EnableTouchpadWakeup; BtStop; DeepSleepStart]).
Proof.
  intros now s1.
  assert (Hr : returns (loop i) s = negb (sleepDue now i s1))
    by apply loop_returns_iff.
  split; [ | split].
  - rewrite Hr, negb_false_iff. unfold sleepDue.
    rewrite !andb_true_iff, !negb_true_iff, Z.eqb_neq, Z.ltb_lt. tauto.
  - intros Hm. rewrite Hr. unfold sleepDue. rewrite Hm.
    rewrite andb_false_r. reflexivity.
  - destruct (loop_sleep_trace i s) as (evs & Ht & Hc & Hlast).
    apply emitted_app in Ht. rewrite Ht. split; assumption.
Qed.

(** X10. The charging flag that the sleep planner reads is a cached value:
    [loop] refreshes [batteryCharging] from the USB probe only on a tick
    whose periodic operation runs while the battery is not dead; on every
    other tick it keeps the value of the last sample. *)
Theorem loop_refreshes_charging_on_sample (i : TickInput) (s : State) :
  let now := to_long (millis (clock i)) in
  batteryCharging (exec (loop i) s)
  = if periodicDue now s && negb (batteryDead s) then usbPowered i
    else batteryCharging s.
Proof.
  intros now.
  destruct (loopBeforeSleepTimer_power i s) as (_ & _ & _ & Hc).
  fold now in Hc. rewrite <- Hc.
  pose proof (loop_stages i s) as L. cbv zeta in L.
  unfold exec at 1. rewrite L.
  destruct (sleepDue (to_long (millis (clock i))) i
                     (exec (loopBeforeSleepTimer i) s)); simpl;
    [reflexivity | ].
  apply (loopAfterSleepTimer_plan i (exec (loopBeforeSleepTimer i) s)).
Qed.

(** X11. The only delay [loop] makes is the idle delay of 10 ms, made once
    at the end of a tick that returns while the petals are idle: the
    runtime loop never blocks on the 500 ms settle delay of [setup]. *)
Theorem loop_delays_only_when_idle (i : TickInput) (s : State) :
  count isDelay (emitted (loop i) s)
  = (if returns (loop i) s && idle i then 1 else 0)%nat /\
  (forall ms : Z, In (Delay ms) (emitted (loop i) s) -> ms = 10).
Proof.
  destruct s as [bd bc dst pot irt low tr].
  unfold emitted, exec, returns. unfold_sketch. simpl.
  case_bools; norm_trace; rewrite skipn_length_app;
    (split; [reflexivity | ]);
    intros ms H; simpl in H; intuition congruence.
Qed.

(** ** Runs of [loop] *)

Lemma returns_run_cons (i : TickInput) (rest : list TickInput) (s : State) :
  returns (run (i :: rest)) s
  = if returns (loop i) s then returns (run rest) (exec (loop i) s) else false.
Proof.
  unfold returns, exec. rewrite run_cons.
  destruct (loop i s) as [[u|] s']; reflexivity.
Qed.

Lemma run_sleep_trace (ticks : list TickInput) (s : State) :
  exists evs,
    trace (exec (run ticks) s) = trace s ++ evs /\
    count isDeepSleepStart evs = (if returns (run ticks) s then 0 else 1)%nat /\
    (returns (run ticks) s = false -> exists pre, evs = pre ++ [DeepSleepStart]).
Proof.
  revert s. induction ticks as [|i rest IH]; intros s.
  - exists []. rewrite app_nil_r. repeat split. discriminate.
  - destruct (loop_sleep_trace i s) as (evs & Ht & Hc & Hlast).
    rewrite exec_run_cons, returns_run_cons.
    destruct (returns (loop i) s).
    + destruct (IH (exec (loop i) s)) as (evs' & Ht' & Hc' & Hlast').
      exists (evs ++ evs'). rewrite Ht', Ht, app_assoc.
      split; [reflexivity | ]. split.
      * rewrite count_app, Hc, Hc'. reflexivity.
      * intros Hr. destruct (Hlast' Hr) as (pre & ->).
        exists (evs ++ pre). rewrite app_assoc. reflexivity.
    + exists evs. split; [exact Ht | ]. split; [exact Hc | ].
      intros _. destruct (Hlast eq_refl) as (pre & ->).
      exists (pre ++ [EnableTouchpadWakeup; BtStop]).
      rewrite <- app_assoc. reflexivity.
Qed.

(** X12. In every run of [loop] deep sleep is started at most once, and
    nothing is called after it: a run that ends suspended has started deep
    sleep exactly once, as the last call of its trace; a run that has not
    been suspended has not started deep sleep. *)
Theorem run_sleeps_at_most_once (ticks : list TickInput) (s : State) :
  count isDeepSleepStart (emitted (run ticks) s)
  = (if returns (run ticks) s then 0 else 1)%nat /\
  (returns (run ticks) s = false ->
   exists pre, trace (exec (run ticks) s) = pre ++ [DeepSleepStart]).
Proof.
  destruct (run_sleep_trace ticks s) as (evs & Ht & Hc & Hlast).
  split.
  - rewrite (emitted_app _ _ _ Ht). exact Hc.
  - intros Hr. destruct (Hlast Hr) as (pre & ->).
    exists (trace s ++ pre). rewrite Ht, app_assoc. reflexivity.
Qed.

(** One tick in dead mode: the sleep timer is tested on the deadline the
    tick starts with, and a tick that returns keeps it. *)
Lemma loop_in_dead_mode (i : TickInput) (s : State) :
  batteryDead s = true ->
  returns (loop i) s = negb (sleepDue (to_long (millis (clock i))) i s) /\
  batteryDead (exec (loop i) s) = true /\
  (returns (loop i) s = true ->
   deepSleepTime (exec (loop i) s) = deepSleepTime s).
Proof.
  intros Hd.
  destruct (loopBeforeSleepTimer_power i s) as (H1 & _).
  destruct (H1 Hd) as (Hbd & Hdst).
  assert (Hr : returns (loop i) s
               = negb (sleepDue (to_long (millis (clock i))) i s)).
  { rewrite loop_returns_iff. unfold sleepDue. rewrite Hdst. reflexivity. }
  split; [exact Hr | ].
  split; [apply (loop_dead i s Hd) | ].
  intros Hret. rewrite (exec_loop_returned i s Hret).
  destruct (loopAfterSleepTimer_plan i (exec (loopBeforeSleepTimer i) s))
    as (_ & _ & Hplan).
  rewrite Hbd in Hplan. congruence.
Qed.

Lemma run_in_dead_mode (ticks : list TickInput) (s : State) :
  batteryDead s = true ->
  Forall (notYetDue (deepSleepTime s)) ticks ->
  returns (run ticks) s = true /\
  batteryDead (exec (run ticks) s) = true /\
  deepSleepTime (exec (run ticks) s) = deepSleepTime s.
Proof.
  intros Hd HF. revert s Hd HF.
  induction ticks as [|i rest IH]; intros s Hd HF; [repeat split; assumption | ].
  inversion HF as [|i' rest' Hi Hrest]; subst.
  destruct (loop_in_dead_mode i s Hd) as (Hr & Hbd & Hkeep).
  assert (Hret : returns (loop i) s = true).
  { rewrite Hr. unfold sleepDue.
    destruct Hi as [Hle | Hm].
    - apply Z.ltb_ge in Hle. rewrite Hle, andb_false_r. reflexivity.
    - rewrite Hm, andb_false_r. reflexivity. }
  specialize (Hkeep Hret).
  rewrite exec_run_cons, returns_run_cons, Hret.
  rewrite <- Hkeep in Hrest.
  destruct (IH _ Hbd Hrest) as (IH1 & IH2 & IH3).
  repeat split; congruence.
Qed.

(** X13. In dead mode the planned sleep cannot be called off.  A tick that
    starts with [batteryDead] set suspends exactly when the deadline it
    starts with is armed and strictly earlier than [now] and the petals are
    not moving, whatever the USB probe, the light, the petals' position and
    the remote report; a tick that returns leaves the deadline as it was. *)
Theorem dead_mode_keeps_sleep_deadline (i : TickInput) (s : State) :
  batteryDead s = true ->
  (returns (loop i) s = false <->
   deepSleepTime s <> 0 /\ deepSleepTime s < to_long (millis (clock i)) /\
   petalsMoving i = false) /\
  (returns (loop i) s = true ->
   deepSleepTime (exec (loop i) s) = deepSleepTime s).
Proof.
  intros Hd. destruct (loop_in_dead_mode i s Hd) as (Hr & _ & Hkeep).
  split; [ | exact Hkeep].
  rewrite Hr, negb_false_iff. unfold sleepDue.
  rewrite !andb_true_iff, !negb_true_iff, Z.eqb_neq, Z.ltb_lt. tauto.
Qed.

Lemma dead_mode_keeps_sleep_deadline_witness :
  batteryDead died_at_runtime = true /\
  deepSleepTime died_at_runtime = 3101 /\
  returns (loop (link_up_tick 3102)) died_at_runtime = false.
Proof.
  split; [reflexivity | ]. split; [reflexivity | ].
  apply (dead_mode_keeps_sleep_deadline (link_up_tick 3102) died_at_runtime).
  - reflexivity.
  - split; [vm_compute; discriminate | ].
    split; [vm_compute; reflexivity | reflexivity].
Defined.

(** X14. After a boot on a dead battery the warning is shown for the whole
    of [BATTERY_DEAD_WARNING_DURATION] and then the device sleeps.  With the
    deadline that duration after the clock reading of [setup] (the clock not
    wrapping): a run whose ticks are each not later than the deadline, or
    find the petals moving, is not suspended and keeps the deadline; and on
    the next tick that is strictly later than the deadline with the petals
    not moving, the processor is suspended. *)
Theorem dead_boot_sleeps_after_warning
  (b : BootInput) (ticks : list TickInput) (i : TickInput) :
  let s0 := exec (setup b) power_on in
  let deadline := dead_clock b + BATTERY_DEAD_WARNING_DURATION in
  bootDead b = true ->
  0 <= dead_clock b ->
  dead_clock b + BATTERY_DEAD_WARNING_DURATION < 2 ^ 31 ->
  Forall (notYetDue deadline) ticks ->
  returns (run ticks) s0 = true /\
  deepSleepTime (exec (run ticks) s0) = deadline /\
  (deadline < to_long (millis (clock i)) -> petalsMoving i = false ->
   returns (loop i) (exec (run ticks) s0) = false).
Proof.
  intros s0 deadline Hb H0 H1 HF.
  assert (Hd : batteryDead s0 = true)
    by (unfold s0; rewrite setup_batteryDead; exact Hb).
  assert (Hdst : deepSleepTime s0 = deadline).
  { destruct (setup_timers b) as (_ & _ & Hs & _). fold s0 in Hs.
    rewrite Hb in Hs. rewrite Hs. apply deadline_small; [lia | | lia].
    unfold BATTERY_DEAD_WARNING_DURATION. lia. }
  rewrite <- Hdst in HF.
  destruct (run_in_dead_mode ticks s0 Hd HF) as (Hr & Hbd & Hkeep).
  split; [exact Hr | ]. split; [congruence | ].
  intros Hlate Hm.
  destruct (loop_in_dead_mode i _ Hbd) as (Hr' & _).
  rewrite Hr'. unfold sleepDue. rewrite Hkeep, Hdst, Hm.
  apply Z.ltb_lt in Hlate. rewrite Hlate.
  replace (deadline =? 0) with false; [reflexivity | ].
  symmetry. apply Z.eqb_neq.
  unfold deadline, BATTERY_DEAD_WARNING_DURATION. lia.
Qed.

Lemma dead_boot_sleeps_after_warning_witness :
  returns (run [busy_tick 1000 false sagging; quiet_tick 5600 false sagging;
                busy_tick 7000 false sagging])
          booted_dead = true /\
  returns (loop (quiet_tick 7010 false sagging))
          (exec (run [busy_tick 1000 false sagging;
                      quiet_tick 5600 false sagging;
                      busy_tick 7000 false sagging])
                booted_dead) = false.
Proof.
  assert (HF : Forall (notYetDue (dead_clock boot_dead
                                  + BATTERY_DEAD_WARNING_DURATION))
                      [busy_tick 1000 false sagging;
                       quiet_tick 5600 false sagging;
                       busy_tick 7000 false sagging]).
  { apply Forall_cons; [left; vm_compute; discriminate | ].
    apply Forall_cons; [left; vm_compute; discriminate | ].
    apply Forall_cons; [right; reflexivity | apply Forall_nil]. }
  assert (H0 : 0 <= dead_clock boot_dead) by (vm_compute; discriminate).
  assert (H1 : dead_clock boot_dead + BATTERY_DEAD_WARNING_DURATION < 2 ^ 31)
    by (vm_compute; reflexivity).
  destruct (dead_boot_sleeps_after_warning boot_dead
              [busy_tick 1000 false sagging; quiet_tick 5600 false sagging;
               busy_tick 7000 false sagging]
              (quiet_tick 7010 false sagging) eq_refl H0 H1 HF)
    as (Hr & _ & Hfire).
  split; [exact Hr | ].
  apply Hfire; [vm_compute; reflexivity | reflexivity].
Defined.

(** One tick taken within the inactivity timeout, on a battery that is not
    found dead: a deadline that is unarmed or at least the timeout after
    [since] does not fire, and is so again after the tick. *)
Lemma loop_within_timeout (since : Z) (i : TickInput) (s : State) :
  withinInactivityTimeout since i ->
  deepSleepTime s = 0 \/
  since + DEEP_SLEEP_INACTIVITY_TIMEOUT <= deepSleepTime s ->
  batteryDead (exec (loop i) s) = false ->
  returns (loop i) s = true /\
  (deepSleepTime (exec (loop i) s) = 0 \/
   since + DEEP_SLEEP_INACTIVITY_TIMEOUT <= deepSleepTime (exec (loop i) s)).
Proof.
  intros (Hc & Hp0 & Hp & Hp1) Hinv Halive.
  unfold DEEP_SLEEP_INACTIVITY_TIMEOUT in *.
  set (s1 := exec (loopBeforeSleepTimer i) s) in *.
  assert (Hnow : to_long (millis (clock i)) = clock i)
    by (apply now_small; lia).
  pose proof (loop_stages i s) as L. cbv zeta in L. fold s1 in L.
  rewrite Hnow in L.
  assert (Hs1 : batteryDead s1 = false).
  { unfold exec in Halive. rewrite L in Halive.
    destruct (sleepDue (clock i) i s1); simpl in Halive; [exact Halive | ].
    destruct (loopAfterSleepTimer_plan i s1) as (Hb & _). congruence. }
  destruct (loopBeforeSleepTimer_power i s) as (_ & H2 & _).
  destruct (H2 Hs1) as (_ & Hdst). fold s1 in Hdst.
  assert (Hdue : sleepDue (clock i) i s1 = false).
  { unfold sleepDue. rewrite Hdst. destruct Hinv as [Hz | Hge].
    - rewrite Hz. reflexivity.
    - replace (deepSleepTime s <? clock i) with false
        by (symmetry; apply Z.ltb_ge; lia).
      rewrite andb_false_r. reflexivity. }
  assert (Hr : returns (loop i) s = true)
    by (rewrite loop_returns_iff, Hnow; fold s1; rewrite Hdue; reflexivity).
  split; [exact Hr | ].
  rewrite (exec_loop_returned i s Hr). fold s1.
  destruct (loopAfterSleepTimer_plan i s1) as (_ & _ & Hplan).
  rewrite Hs1 in Hplan. rewrite Hplan.
  destruct (inactive (batteryCharging s1) i); [ | left; reflexivity].
  destruct (deepSleepTime s1 =? 0) eqn:E.
  - right. rewrite deadline_small; unfold DEEP_SLEEP_INACTIVITY_TIMEOUT; lia.
  - rewrite Hdst. destruct Hinv as [Hz | Hge]; [left; exact Hz | right; exact Hge].
Qed.

(** X15. The device does not go to sleep earlier than
    [DEEP_SLEEP_INACTIVITY_TIMEOUT] after the start of a run unless the
    battery is found dead.  From a state with no deadline armed, a run whose
    ticks are all taken within the timeout after the clock reading [since]
    (the clock not wrapping) and which never finds the battery dead is not
    suspended, and the deadline it leaves, when armed, is at least the
    timeout after [since]. *)
Theorem no_sleep_within_inactivity_timeout
  (since : Z) (ticks : list TickInput) (s : State) :
  deepSleepTime s = 0 ->
  Forall (withinInactivityTimeout since) ticks ->
  batteryDead (exec (run ticks) s) = false ->
  returns (run ticks) s = true /\
  (deepSleepTime (exec (run ticks) s) = 0 \/
   since + DEEP_SLEEP_INACTIVITY_TIMEOUT <= deepSleepTime (exec (run ticks) s)).
Proof.
  intros Hz HF.
  assert (Hinv : deepSleepTime s = 0 \/
                 since + DEEP_SLEEP_INACTIVITY_TIMEOUT <= deepSleepTime s)
    by (left; exact Hz).
  clear Hz. revert s Hinv.
  induction HF as [|i rest Hi _ IH]; intros s Hinv Halive;
    [split; [reflexivity | exact Hinv] | ].
  rewrite exec_run_cons in Halive. rewrite exec_run_cons, returns_run_cons.
  assert (Hstep : batteryDead (exec (loop i) s) = false).
  { destruct (returns (loop i) s); [ | exact Halive].
    destruct (batteryDead (exec (loop i) s)) eqn:E; [ | reflexivity].
    destruct (run_dead rest _ E) as (Hd & _). congruence. }
  destruct (loop_within_timeout since i s Hi Hinv Hstep) as (Hr & Hinv').
  rewrite Hr in *. apply IH; assumption.
Qed.

Lemma no_sleep_within_inactivity_timeout_witness :
  deepSleepTime (exec (setup boot_healthy) power_on) = 0 /\
  returns (run [quiet_tick 200 false healthy; quiet_tick 3101 false healthy;
                quiet_tick 60100 false healthy])
          (exec (setup boot_healthy) power_on) = true.
Proof.
  split; [reflexivity | ].
  assert (HF : Forall (withinInactivityTimeout 100)
                      [quiet_tick 200 false healthy;
                       quiet_tick 3101 false healthy;
                       quiet_tick 60100 false healthy]).
  { repeat apply Forall_cons; try apply Forall_nil;
      (vm_compute; repeat split; (discriminate || reflexivity)). }
  assert (Ha : batteryDead
                 (exec (run [quiet_tick 200 false healthy;
                             quiet_tick 3101 false healthy;
                             quiet_tick 60100 false healthy])
                       (exec (setup boot_healthy) power_on)) = false)
    by (vm_compute; reflexivity).
  apply (no_sleep_within_inactivity_timeout 100
           [quiet_tick 200 false healthy; quiet_tick 3101 false healthy;
            quiet_tick 60100 false healthy]
           (exec (setup boot_healthy) power_on) eq_refl HF Ha).
Defined.

(** X16. The periodic timer shares the value 0 with "not armed".  A periodic
    operation re-arms the timer at [now + PERIODIC_OPERATIONS_INTERVAL], so
    it leaves the timer armed unless [now] is exactly
    [- PERIODIC_OPERATIONS_INTERVAL], a reading the 32-bit clock takes once
    per wrap.  [loop] never arms a periodic timer that is not armed: from
    then on no tick runs the periodic operation or resets the watchdog. *)
Theorem periodic_timer_rearm (i : TickInput) (s : State) :
  let now := to_long (millis (clock i)) in
  periodicDue now s = true ->
  (periodicOperationsTime (exec (loop i) s) = 0 <->
   now = - PERIODIC_OPERATIONS_INTERVAL) /\
  (forall (t : State) (ticks : list TickInput),
      periodicOperationsTime t = 0 ->
      periodicOperationsTime (exec (run ticks) t) = 0 /\
      count isWdtReset (trace (exec (run ticks) t))
      = count isWdtReset (trace t)).
Proof.
  intros now Hdue. split; [ | intros t ticks Ht; apply run_without_periodic, Ht].
  pose proof (loop_periodic i s) as L. cbv zeta in L. fold now in L.
  rewrite Hdue in L. destruct L as (Lp & _). rewrite Lp.
  rewrite to_long_zero_iff.
  pose proof (to_long_range (millis (clock i))) as Hrange. fold now in Hrange.
  unfold PERIODIC_OPERATIONS_INTERVAL. split.
  - intros Hmod.
    destruct (Z_lt_le_dec (now + 3000) 0) as [Hneg | Hpos].
    + replace (now + 3000) with ((now + 3000 + 2 ^ 32) + (-1) * 2 ^ 32)
        in Hmod by lia.
      rewrite Z.mod_add in Hmod by lia.
      rewrite Z.mod_small in Hmod by lia. lia.
    + rewrite Z.mod_small in Hmod by lia. lia.
  - intros ->. reflexivity.
Qed.

Lemma periodic_timer_rearm_witness :
  periodicOperationsTime awake_before_wrap = - 58000 /\
  periodicOperationsTime
    (exec (loop (busy_tick (2 ^ 32 - 3000) false healthy)) awake_before_wrap)
  = 0.
Proof.
  split; [reflexivity | ].
  apply (periodic_timer_rearm (busy_tick (2 ^ 32 - 3000) false healthy)
                              awake_before_wrap).
  - vm_compute. reflexivity.
  - vm_compute. reflexivity.
Defined.
